(** * A shallow embedding of [webhooks.py], the GitHub webhook receiver

    The request handler [index] of the program is embedded as a function on
    an explicit world (the allow-list cache [ghm], the files of the
    machine and a log of the observable actions).  Python exceptions and
    Flask's [abort] are results of an error monad; everything the handler
    obtains from outside the program (the answer of the upstream allow-list
    service, the behaviour of a hook process, the name chosen by [mkstemp])
    is read from an environment record.

    Contents: Python values and exceptions; string helpers ([split],
    [join], [basename]); the allow-list refresh; signature verification;
    branch and repository extraction; hook resolution; the hook runner;
    the handler; then the properties. *)

From Stdlib Require Import ZArith Ascii String Bool.
From stdpp Require Import base option list gmap strings fin_maps.

Set Warnings "-register-all".
#[local] Arguments String.append !s1 s2 : simpl nomatch.

Local Open Scope string_scope.
Local Open Scope list_scope.

(** ** Python values *)

(** A document as [json.loads] returns it.  [JNull] is Python's [None],
    [JFloat m e] is a parsed double of value [m * 2^e], and a [JObj] lists
    the items of a [dict] (a key is looked up at its first occurrence). *)
Inductive json : Type :=
  | JNull
  | JBool (b : bool)
  | JInt (z : Z)
  | JFloat (m e : Z)
  | JStr (s : string)
  | JArr (l : list json)
  | JObj (kvs : list (string * json)).

(** The exceptions the handler can meet. *)
Inductive exn : Type :=
  | KeyError (key : string)
  | IndexError
  | TypeError
  | AttributeError
  | ValueError
  | OSError
  | UnicodeDecodeError
  | UnicodeEncodeError
  | LookupError.

(** Outcome of a computation: a value, an uncaught exception (which Flask
    answers with status 500), or a call of [abort(code)]. *)
Inductive result (A : Type) : Type :=
  | Ok (a : A)
  | Raise (e : exn)
  | Abort (code : Z).
Arguments Ok {A} a.
Arguments Raise {A} e.
Arguments Abort {A} code.

Definition bind {A B} (r : result A) (k : A -> result B) : result B :=
  match r with
  | Ok a => k a
  | Raise e => Raise e
  | Abort c => Abort c
  end.

Declare Scope py_scope.
Delimit Scope py_scope with py.
Notation "x <- r ;; k" := (bind r (fun x => k))
  (at level 100, r at next level, right associativity) : py_scope.
Local Open Scope py_scope.

(** [try: body except KeyError: pass], where the body assigns [branch]:
    a [KeyError] leaves the variable at the value it had. *)
Definition except_KeyError {A} (body : result A) (kept : A) : result A :=
  match body with
  | Raise (KeyError _) => Ok kept
  | r => r
  end.

(** [v == s] for a string literal [s]. *)
Definition is_str (v : json) (s : string) : bool :=
  match v with
  | JStr t => String.eqb t s
  | _ => false
  end.

(** [d[key]] on a [dict]'s items. *)
Fixpoint assoc (key : string) (kvs : list (string * json)) : option json :=
  match kvs with
  | [] => None
  | (k, v) :: rest => if String.eqb k key then Some v else assoc key rest
  end.

(** [v[key]] with a string key: only a [dict] can be subscripted so. *)
Definition getitem (v : json) (key : string) : result json :=
  match v with
  | JObj kvs =>
      match assoc key kvs with
      | Some x => Ok x
      | None => Raise (KeyError key)
      end
  | _ => Raise TypeError
  end.

Fixpoint is_prefix (p s : string) : bool :=
  match p, s with
  | EmptyString, _ => true
  | String a p', String b s' => Ascii.eqb a b && is_prefix p' s'
  | String _ _, EmptyString => false
  end.

Fixpoint is_infix (p s : string) : bool :=
  is_prefix p s ||
  match s with
  | EmptyString => false
  | String _ s' => is_infix p s'
  end.

(** [key in v]: key membership for a [dict], element membership for a
    [list], substring test for a string; other values are not iterable. *)
Definition contains (key : string) (v : json) : result bool :=
  match v with
  | JObj kvs => Ok (bool_decide (is_Some (assoc key kvs)))
  | JArr l => Ok (existsb (fun x => is_str x key) l)
  | JStr s => Ok (is_infix key s)
  | _ => Raise TypeError
  end.

(** Truth value of a document in a condition. *)
Definition truthy (v : json) : bool :=
  match v with
  | JNull => false
  | JBool b => b
  | JInt z => negb (Z.eqb z 0)
  | JFloat m _ => negb (Z.eqb m 0)
  | JStr s => negb (String.eqb s "")
  | JArr l => match l with [] => false | _ => true end
  | JObj kvs => match kvs with [] => false | _ => true end
  end.

(** ** Strings *)

(** [s.split(sep)] for a one-character separator. *)
Fixpoint split (sep : ascii) (s : string) : list string :=
  match s with
  | EmptyString => [EmptyString]
  | String c s' =>
      if Ascii.eqb c sep then EmptyString :: split sep s'
      else match split sep s' with
           | [] => [String c EmptyString]
           | h :: t => String c h :: t
           end
  end.

(** [s.split(sep, maxsplit)]: at most [maxsplit] cuts, the rest is kept
    whole in the last piece. *)
Fixpoint splitn (sep : ascii) (maxsplit : nat) (s : string) : list string :=
  match s with
  | EmptyString => [EmptyString]
  | String c s' =>
      if Ascii.eqb c sep then
        match maxsplit with
        | O => [s]
        | S n => EmptyString :: splitn sep n s'
        end
      else match splitn sep maxsplit s' with
           | [] => [String c EmptyString]
           | h :: t => String c h :: t
           end
  end.

(** [l[i]] on a list. *)
Definition index_list {A} (l : list A) (i : nat) : result A :=
  match l !! i with
  | Some x => Ok x
  | None => Raise IndexError
  end.

Definition starts_with_slash (s : string) : bool :=
  match s with
  | String c _ => Ascii.eqb c "/"
  | EmptyString => false
  end.

Fixpoint ends_with_slash (s : string) : bool :=
  match s with
  | EmptyString => false
  | String c EmptyString => Ascii.eqb c "/"
  | String _ s' => ends_with_slash s'
  end.

(** [os.path.join(a, b)]. *)
Definition join (a b : string) : string :=
  if starts_with_slash b then b
  else if String.eqb a "" || ends_with_slash a then a +:+ b
  else a +:+ "/" +:+ b.

(** [os.path.basename(p)]: what follows the last slash. *)
Definition basename (p : string) : string :=
  default EmptyString (last (split "/" p)).

(** Every code point of [s] is below 128. *)
Fixpoint is_ascii (s : string) : bool :=
  match s with
  | EmptyString => true
  | String (Ascii _ _ _ _ _ _ _ b7) s' => negb b7 && is_ascii s'
  end.

(** ** HMAC-SHA1

    [hmac.new(key, msg, hashlib.sha1).hexdigest()], on byte strings:
    32-bit words are integers kept below 2^32. *)

Module Hmac.

Local Open Scope Z_scope.

Definition mask32 (x : Z) : Z := Z.land x 0xFFFFFFFF.
Definition add32 (x y : Z) : Z := mask32 (x + y).
Definition rotl (n x : Z) : Z :=
  mask32 (Z.lor (Z.shiftl x n) (Z.shiftr x (32 - n))).
Definition not32 (x : Z) : Z := Z.lxor x 0xFFFFFFFF.

Definition bytes_of (s : string) : list Z :=
  (fun c => Z.of_N (N_of_ascii c)) <$> list_ascii_of_string s.

(** [n] bytes of [x], most significant first. *)
Definition big_endian (n : nat) (x : Z) : list Z :=
  (fun i => Z.land (Z.shiftr x (8 * Z.of_nat i)) 255) <$> rev (seq 0 n).

Definition pad (msg : list Z) : list Z :=
  let len := Z.of_nat (length msg) in
  msg ++ [128] ++ replicate (Z.to_nat ((55 - len) mod 64)) 0
      ++ big_endian 8 (8 * len).

Fixpoint blocks (fuel : nat) (l : list Z) : list (list Z) :=
  match fuel, l with
  | S fuel', _ :: _ => take 64 l :: blocks fuel' (drop 64 l)
  | _, _ => []
  end.

Fixpoint words (n : nat) (l : list Z) : list Z :=
  match n, l with
  | S n', a :: b :: c :: d :: rest =>
      (((a * 256 + b) * 256 + c) * 256 + d) :: words n' rest
  | _, _ => []
  end.

(** The message schedule, newest word first. *)
Fixpoint extend (n : nat) (w : list Z) : list Z :=
  match n with
  | O => w
  | S n' =>
      let at_ i := default 0 (w !! i) in
      extend n'
        (rotl 1 (Z.lxor (Z.lxor (at_ 2%nat) (at_ 7%nat))
                        (Z.lxor (at_ 13%nat) (at_ 15%nat))) :: w)
  end.

Definition schedule (block : list Z) : list Z :=
  rev (extend 64 (rev (words 16 block))).

Definition state : Type := Z * Z * Z * Z * Z.

Definition round (s : state) (iw : nat * Z) : state :=
  let '(a, b, c, d, e) := s in
  let '(i, w) := iw in
  let '(f, k) :=
    if (i <? 20)%nat then
      (Z.lor (Z.land b c) (Z.land (not32 b) d), 0x5A827999)
    else if (i <? 40)%nat then
      (Z.lxor (Z.lxor b c) d, 0x6ED9EBA1)
    else if (i <? 60)%nat then
      (Z.lor (Z.lor (Z.land b c) (Z.land b d)) (Z.land c d), 0x8F1BBCDC)
    else
      (Z.lxor (Z.lxor b c) d, 0xCA62C1D6) in
  (add32 (add32 (add32 (add32 (rotl 5 a) f) e) k) w, a, rotl 30 b, c, d).

Definition compress (h : state) (block : list Z) : state :=
  let '(a, b, c, d, e) :=
    foldl round h (zip (seq 0 80) (schedule block)) in
  let '(h0, h1, h2, h3, h4) := h in
  (add32 h0 a, add32 h1 b, add32 h2 c, add32 h3 d, add32 h4 e).

Definition sha1 (msg : list Z) : list Z :=
  let padded := pad msg in
  let '(h0, h1, h2, h3, h4) :=
    foldl compress
      (0x67452301, 0xEFCDAB89, 0x98BADCFE, 0x10325476, 0xC3D2E1F0)
      (blocks (length padded) padded) in
  big_endian 4 h0 ++ big_endian 4 h1 ++ big_endian 4 h2
    ++ big_endian 4 h3 ++ big_endian 4 h4.

Definition hmac (key msg : list Z) : list Z :=
  let key' := if (64 <? length key)%nat then sha1 key else key in
  let block := key' ++ replicate (64 - length key')%nat 0 in
  sha1 ((Z.lxor 0x5C <$> block) ++ sha1 ((Z.lxor 0x36 <$> block) ++ msg)).

Definition hex_digit (n : Z) : ascii :=
  match n with
  | 0 => "0" | 1 => "1" | 2 => "2" | 3 => "3" | 4 => "4" | 5 => "5"
  | 6 => "6" | 7 => "7" | 8 => "8" | 9 => "9" | 10 => "a" | 11 => "b"
  | 12 => "c" | 13 => "d" | 14 => "e" | _ => "f"
  end%char.

Fixpoint hex (bytes : list Z) : string :=
  match bytes with
  | [] => EmptyString
  | b :: rest =>
      String (hex_digit (Z.shiftr b 4)) (String (hex_digit (Z.land b 15)) (hex rest))
  end.

End Hmac.

(** [hmac.new(key, msg, hashlib.sha1).hexdigest()]. *)
Definition hmac_sha1_hexdigest (key msg : string) : string :=
  Hmac.hex (Hmac.hmac (Hmac.bytes_of key) (Hmac.bytes_of msg)).

(** ** The world of a request *)

(** What the handler reads from [config.json], with [None] for a key that
    the file does not set. *)
Record config : Type := {
  hooks_path : option string;
  github_ips_only : option bool;
  allow_loopback : option bool;
  enforce_secret : option string;
  return_scripts_info : option bool
}.

(** The parts of Flask's [request] the handler uses.  [get_json] is [None]
    when parsing the body raises. *)
Record request : Type := {
  method : string;
  access_route : list string;
  X_Hub_Signature : option string;
  X_GitHub_Event : option string;
  data : string;
  get_json : option json
}.

(** Answer of [requests.get('https://api.github.com/meta', ...)]: the
    status, the [eTag] header and the [hooks] entry of the body, when
    present. *)
Record response : Type := {
  status_code : Z;
  headers_eTag : option string;
  json_hooks : option (list string)
}.

(** What [Popen] and [communicate] give for one hook: the process cannot
    be started, or it ends with a return code and two byte streams. *)
Inductive process : Type :=
  | SpawnFails
  | Exits (returncode : Z) (p_stdout p_stderr : string).

(** The entry of [ran] for one hook. *)
Record hook_result : Type := {
  res_returncode : Z;
  res_stdout : string;
  res_stderr : string
}.

(** The body of a 200 answer: [dumps] of a small document, or of [ran]
    with sorted keys. *)
Inductive body : Type :=
  | Document (j : json)
  | ScriptsInfo (ran : gmap string hook_result).

(** Observable actions, in the order they happen. *)
Inductive action : Type :=
  | Fetch (if_none_match : string)
  | ParseBody
  | Probe (script : string)
  | MkTemp (tmpfile : string)
  | Spawn (script tmpfile event : string)
  | Remove (tmpfile : string).

(** Everything outside the program that one request depends on:
    [hexversion] is [sys.hexversion] of the interpreter, and
    [http_exception] says for which status codes the installed Flask has
    an HTTP exception class ([werkzeug.exceptions.default_exceptions]). *)
Record env : Type := {
  path : string;
  hexversion : Z;
  http_exception : Z -> bool;
  config_json : config;
  meta_service : string -> response;
  executable_file : string -> bool;
  mkstemp : gmap string json -> string;
  popen : string -> string -> string -> process
}.

(** The mutable state: the global [ghm], the files written by the
    program, and the log. *)
Record world : Type := {
  ghm_ips : list string;
  ghm_etag : string;
  files : gmap string json;
  log : list action
}.

Definition set_ips (v : list string) (w : world) : world :=
  {| ghm_ips := v; ghm_etag := ghm_etag w; files := files w; log := log w |}.
Definition set_etag (v : string) (w : world) : world :=
  {| ghm_ips := ghm_ips w; ghm_etag := v; files := files w; log := log w |}.
Definition set_files (v : gmap string json) (w : world) : world :=
  {| ghm_ips := ghm_ips w; ghm_etag := ghm_etag w; files := v; log := log w |}.
Definition emit (a : action) (w : world) : world :=
  {| ghm_ips := ghm_ips w; ghm_etag := ghm_etag w; files := files w;
     log := log w ++ [a] |}.

(** Computations of the handler: state passing with the outcomes of
    [result]; the state survives an exception. *)
Definition M (A : Type) : Type := world -> result A * world.

Definition ret {A} (a : A) : M A := fun w => (Ok a, w).
Definition lift {A} (r : result A) : M A := fun w => (r, w).
(** [abort(code)] for a code that has an HTTP exception class, as the
    codes 400, 403 and 501 that the program names have. *)
Definition abort {A} (code : Z) : M A := fun w => (Abort code, w).
Definition raise {A} (e : exn) : M A := fun w => (Raise e, w).
Definition gets {A} (f : world -> A) : M A := fun w => (Ok (f w), w).
Definition modify (f : world -> world) : M unit := fun w => (Ok tt, f w).
Definition mbind {A B} (m : M A) (k : A -> M B) : M B :=
  fun w =>
    match m w with
    | (Ok a, w') => k a w'
    | (Raise e, w') => (Raise e, w')
    | (Abort c, w') => (Abort c, w')
    end.

Notation "x <~ m ;; k" := (mbind m (fun x => k))
  (at level 100, m at next level, right associativity) : py_scope.
Notation "m ;;; k" := (mbind m (fun _ => k))
  (at level 100, right associativity) : py_scope.

(** ** The handler *)

Section Handler.

(** Library functions the program calls: [str.format] of a value that is
    not a string, [bytes.decode('utf-8')] ([None] when it raises) and the
    [ipaddress] module ([None] when a constructor raises).  A string
    lists code points below 256 (as a header value, which the server
    decodes as latin-1, does); it is ASCII when all of them are below
    128. *)
Variable str_of : json -> string.
Variable utf8_decode : string -> option string.
Variables addr net : Type.
Variable ip_address : string -> option addr.
Variable ip_network : string -> option net.
Variable net_contains : net -> addr -> bool.

Variable E : env.

Definition loopback : string := "127.0.0.0/8".

(** Line 101: Flask's [abort] looks the code up among the HTTP exception
    classes and raises [LookupError] when there is none, as for 202 or
    301. *)
Definition abort_status {A} (code : Z) : M A :=
  if http_exception E code then abort code else raise LookupError.

(** Lines 93-101: the conditional fetch and the update of the cache.
    The headers of [requests] are looked up in lower case. *)
Definition refresh : M unit :=
  etag <~ gets ghm_etag ;;
  modify (emit (Fetch etag)) ;;;
  let resp := meta_service E etag in
  if Z.eqb (status_code resp) 200 then
    new_etag <~ lift (match headers_eTag resp with
                      | Some t => Ok t
                      | None => Raise (KeyError "etag")
                      end) ;;
    modify (set_etag new_etag) ;;;
    new_ips <~ lift (match json_hooks resp with
                     | Some l => Ok l
                     | None => Raise (KeyError "hooks")
                     end) ;;
    modify (set_ips new_ips)
  else if negb (Z.eqb (status_code resp) 304) then
    abort_status (status_code resp)
  else ret tt.

(** Lines 103-107: [whitelist] is the cached list itself, so the append
    changes the cache. *)
Definition whitelist_with_loopback (cfg : config) : M (list string) :=
  whitelist <~ gets ghm_ips ;;
  if default false (allow_loopback cfg)
     && negb (bool_decide (loopback ∈ whitelist)) then
    modify (set_ips (whitelist ++ [loopback])) ;;;
    ret (whitelist ++ [loopback])
  else ret whitelist.

(** Lines 109-117: the [for ... else] over the allow-list; [true] when
    the loop leaves by [break]. *)
Fixpoint allowed (src_ip : addr) (whitelist : list string) : result bool :=
  match whitelist with
  | [] => Ok false
  | valid_ip :: rest =>
      match ip_network valid_ip with
      | None => Raise ValueError
      | Some n => if net_contains n src_ip then Ok true else allowed src_ip rest
      end
  end.

(** Lines 89-117. *)
Definition check_source (cfg : config) (rq : request) : M unit :=
  if default true (github_ips_only cfg) then
    first <~ lift (index_list (access_route rq) 0) ;;
    src_ip <~ lift (match ip_address first with
                    | Some a => Ok a
                    | None => Raise ValueError
                    end) ;;
    refresh ;;;
    whitelist <~ whitelist_with_loopback cfg ;;
    found <~ lift (allowed src_ip whitelist) ;;
    if found : bool then ret tt else abort 403
  else ret tt.

(** From 3.0 on ([hexversion] 0x03000000) the interpreter is Python 3. *)
Definition python3 : bool := (0x03000000 <=? hexversion E)%Z.

(** [str(s)] of a text: the text itself under Python 3, its ASCII
    encoding under Python 2, which raises on a code point above 127. *)
Definition str_text (s : string) : result string :=
  if python3 || is_ascii s then Ok s else Raise UnicodeEncodeError.

(** [hmac.new(key, msg, hashlib.sha1)] followed by [hexdigest()], for a
    key that is a [str]: Python 3 wants bytes and raises [TypeError]. *)
Definition hmac_new (key msg : string) : result string :=
  if python3 then Raise TypeError else Ok (hmac_sha1_hexdigest key msg).

(** [hmac.compare_digest] of two strings of the same type. *)
Definition compare_digest (a b : string) : bool := String.eqb a b.

(** Lines 120-143.  The test of line 135 is against 2.7.7
    ([hexversion] 0x020707F0). *)
Definition check_signature (cfg : config) (rq : request) : result unit :=
  let secret := default "" (enforce_secret cfg) in
  if truthy (JStr secret) then
    match X_Hub_Signature rq with
    | None => Abort 403
    | Some header_signature =>
        match split "=" header_signature with
        | [sha_name; signature] =>
            if negb (String.eqb sha_name "sha1") then Abort 501
            else
              key <- str_text secret ;;
              hexdigest <- hmac_new key (data rq) ;;
              if (0x020707F0 <=? hexversion E)%Z then
                signature <- str_text signature ;;
                if negb (compare_digest hexdigest signature) then Abort 403
                else Ok tt
              else
                signature <- str_text signature ;;
                if negb (String.eqb hexdigest signature) then Abort 403
                else Ok tt
        | _ => Raise ValueError
        end
    end
  else Ok tt.

(** Lines 159-181. *)
Definition extract_branch (event : string) (payload : json) : result json :=
  except_KeyError
    (has_ref_type <- contains "ref_type" payload ;;
     if has_ref_type : bool then
       ref_type <- getitem payload "ref_type" ;;
       if is_str ref_type "branch" then getitem payload "ref" else Ok JNull
     else
       has_pull_request <- contains "pull_request" payload ;;
       if has_pull_request : bool then
         pull_request <- getitem payload "pull_request" ;;
         base <- getitem pull_request "base" ;;
         getitem base "ref"
       else if String.eqb event "push" then
         ref <- getitem payload "ref" ;;
         match ref with
         | JStr s => part <- index_list (splitn "/" 2 s) 2 ;; Ok (JStr part)
         | _ => Raise AttributeError
         end
       else Ok JNull)
    JNull.

(** Line 185. *)
Definition extract_name (payload : json) : result json :=
  has_repository <- contains "repository" payload ;;
  if has_repository : bool then
    repository <- getitem payload "repository" ;;
    getitem repository "name"
  else Ok JNull.

(** Line 195. *)
Definition push_delete (event : string) (payload : json) : result bool :=
  if String.eqb event "push" then
    deleted <- getitem payload "deleted" ;;
    Ok (truthy deleted)
  else Ok false.

(** A field of [meta] as [str.format] prints it. *)
Definition fmt (v : json) : string :=
  match v with
  | JStr s => s
  | _ => str_of v
  end.

(** Lines 200-206. *)
Definition candidates (hooks event : string) (name branch : json) : list string :=
  (if truthy branch && truthy name
   then [join hooks (event +:+ "-" +:+ fmt name +:+ "-" +:+ fmt branch)]
   else [])
  ++ (if truthy name then [join hooks (event +:+ "-" +:+ fmt name)] else [])
  ++ [join hooks event]
  ++ [join hooks "all"].

(** Line 209: each candidate is probed, those that are executable files
    are kept. *)
Fixpoint check_permissions (scripts : list string) : M (list string) :=
  match scripts with
  | [] => ret []
  | s :: rest =>
      modify (emit (Probe s)) ;;;
      kept <~ check_permissions rest ;;
      ret (if executable_file E s then s :: kept else kept)
  end.

(** Lines 220-238: the loop over the scripts, threading [ran]. *)
Fixpoint run_scripts (tmpfile event : string) (scripts : list string)
    (ran : gmap string hook_result) : M (gmap string hook_result) :=
  match scripts with
  | [] => ret ran
  | scr :: rest =>
      modify (emit (Spawn scr tmpfile event)) ;;;
      match popen E scr tmpfile event with
      | SpawnFails => raise OSError
      | Exits returncode p_stdout p_stderr =>
          match utf8_decode p_stdout, utf8_decode p_stderr with
          | Some out, Some err =>
              run_scripts tmpfile event rest
                (<[basename scr :=
                     {| res_returncode := returncode;
                        res_stdout := out; res_stderr := err |}]> ran)
          | _, _ => raise UnicodeDecodeError
          end
      end
  end.

(** Lines 214-216. *)
Definition save_payload (payload : json) : M string :=
  fs <~ gets files ;;
  let tmpfile := mkstemp E fs in
  modify (emit (MkTemp tmpfile)) ;;;
  modify (set_files (<[tmpfile := payload]> fs)) ;;;
  ret tmpfile.

(** Line 241. *)
Definition remove (tmpfile : string) : M unit :=
  fs <~ gets files ;;
  match fs !! tmpfile with
  | Some _ =>
      modify (emit (Remove tmpfile)) ;;;
      modify (set_files (delete tmpfile fs))
  | None => raise OSError
  end.

(** Lines 199-249: from the resolution of the hooks to the answer. *)
Definition dispatch (cfg : config) (hooks event : string)
    (payload name branch : json) : M body :=
  scripts <~ check_permissions (candidates hooks event name branch) ;;
  match scripts with
  | [] => ret (Document (JObj [("status", JStr "nop")]))
  | _ =>
      tmpfile <~ save_payload payload ;;
      ran <~ run_scripts tmpfile event scripts ∅ ;;
      remove tmpfile ;;;
      if default false (return_scripts_info cfg)
      then ret (ScriptsInfo ran)
      else ret (Document (JObj [("status", JStr "done")]))
  end.

(** Lines 150-249: what follows the ping test. *)
Definition handle_event (cfg : config) (hooks event : string) (rq : request) : M body :=
  modify (emit ParseBody) ;;;
  payload <~ match get_json rq with
             | Some p => ret p
             | None => abort 400
             end ;;
  branch <~ lift (extract_branch event payload) ;;
  name <~ lift (extract_name payload) ;;
  skip <~ lift (push_delete event payload) ;;
  if skip : bool then ret (Document (JObj [("status", JStr "skipped")]))
  else dispatch cfg hooks event payload name branch.

(** The route [/], lines 71-249. *)
Definition index (rq : request) : M body :=
  if negb (String.eqb (method rq) "POST") then abort 501
  else
    let cfg := config_json E in
    let hooks := default (join (path E) "hooks") (hooks_path cfg) in
    check_source cfg rq ;;;
    lift (check_signature cfg rq) ;;;
    let event := default "ping" (X_GitHub_Event rq) in
    if String.eqb event "ping" then ret (Document (JObj [("msg", JStr "pong")]))
    else handle_event cfg hooks event rq.

End Handler.

(** ** Auxiliary definitions of the statements *)

(** [s] has no character [c]. *)
Fixpoint no_char (c : ascii) (s : string) : bool :=
  match s with
  | EmptyString => true
  | String a s' => negb (Ascii.eqb a c) && no_char c s'
  end.

(** Number of occurrences of [c] in [s]. *)
Fixpoint count_char (c : ascii) (s : string) : nat :=
  match s with
  | EmptyString => 0
  | String a s' => (if Ascii.eqb a c then 1 else 0) + count_char c s'
  end.

(** The directory part that [join] puts before a relative name. *)
Definition dir_prefix (a : string) : string :=
  if String.eqb a "" || ends_with_slash a then a else a +:+ "/".

(** The world after a list of actions was logged. *)
Definition emits (l : list action) (w : world) : world :=
  foldl (fun w a => emit a w) w l.

(** The world in which the hooks run: candidates probed, payload saved. *)
Definition payload_saved (E : env) (scripts : list string) (payload : json)
    (w : world) : world :=
  let tmpfile := mkstemp E (files w) in
  set_files (<[tmpfile := payload]> (files w))
    (emit (MkTemp tmpfile) (emits (Probe <$> scripts) w)).

(** A hook that starts, ends and prints text that decodes. *)
Definition completes (utf8_decode : string -> option string) (E : env)
    (tmpfile event scr : string) : Prop :=
  exists returncode p_stdout p_stderr out err,
    popen E scr tmpfile event = Exits returncode p_stdout p_stderr
    /\ utf8_decode p_stdout = Some out /\ utf8_decode p_stderr = Some err.

(** The range [v] parses and does not hold the address [src_ip]. *)
Definition outside_range {addr net : Type}
    (ip_network : string -> option net) (net_contains : net -> addr -> bool)
    (src_ip : addr) (v : string) : Prop :=
  exists n, ip_network v = Some n /\ net_contains n src_ip = false.

(** The request [rq] with another signature header. *)
Definition with_signature (h : option string) (rq : request) : request :=
  {| method := method rq;
     access_route := access_route rq;
     X_Hub_Signature := h;
     X_GitHub_Event := X_GitHub_Event rq;
     data := data rq;
     get_json := get_json rq |}.

(** A hook that cannot be started, or whose output does not decode. *)
Definition hook_fails (utf8_decode : string -> option string) (E : env)
    (tmpfile event scr : string) : Prop :=
  popen E scr tmpfile event = SpawnFails
  \/ exists returncode p_stdout p_stderr,
       popen E scr tmpfile event = Exits returncode p_stdout p_stderr
       /\ (utf8_decode p_stdout = None \/ utf8_decode p_stderr = None).

(** The log entries of starting [scripts], in order. *)
Definition spawns (tmpfile event : string) (scripts : list string)
    : list action :=
  (fun scr => Spawn scr tmpfile event) <$> scripts.

(** The world after the hooks [kept] ran and the file was removed. *)
Definition hooks_finished (E : env) (scripts kept : list string)
    (event : string) (payload : json) (w : world) : world :=
  let tmpfile := mkstemp E (files w) in
  set_files (delete tmpfile (<[tmpfile := payload]> (files w)))
    (emit (Remove tmpfile)
       (emits (spawns tmpfile event kept)
          (payload_saved E scripts payload w))).

(** A document that is neither a mapping, a list nor a string. *)
Definition scalar (v : json) : bool :=
  match v with
  | JNull | JBool _ | JInt _ | JFloat _ _ => true
  | _ => false
  end.

(** The names the four rules list, before [join] puts the directory in
    front. *)
Definition hook_names (str_of : json -> string) (event : string)
    (name branch : json) : list string :=
  (if truthy branch && truthy name
   then [event +:+ "-" +:+ fmt str_of name +:+ "-" +:+ fmt str_of branch]
   else [])
  ++ (if truthy name then [event +:+ "-" +:+ fmt str_of name] else [])
  ++ [event] ++ ["all"].

(** ** A concrete installation

    Instances of the library functions and of the environment, used to
    run the handler on explicit requests. *)
Module Sample.

Definition str_of (v : json) : string :=
  match v with
  | JBool true => "True"
  | JBool false => "False"
  | _ => "None"
  end.

Definition utf8_decode (b : string) : option string := Some b.

Definition digit (c : ascii) : option Z :=
  let n := Z.of_N (N_of_ascii c) in
  if (48 <=? n)%Z && (n <=? 57)%Z then Some (n - 48)%Z else None.

Fixpoint decimal_from (acc : Z) (s : string) : option Z :=
  match s with
  | EmptyString => Some acc
  | String c s' => d ← digit c; decimal_from (10 * acc + d)%Z s'
  end.

Definition decimal (s : string) : option Z :=
  match s with
  | EmptyString => None
  | _ => decimal_from 0 s
  end.

(** IPv4 only: an address is its 32-bit value, a network a base and a
    prefix length. *)
Definition ip_address (s : string) : option Z :=
  match split "." s with
  | [a; b; c; d] =>
      a ← decimal a; b ← decimal b; c ← decimal c; d ← decimal d;
      if forallb (fun x => x <=? 255)%Z [a; b; c; d]
      then Some (((a * 256 + b) * 256 + c) * 256 + d)%Z
      else None
  | _ => None
  end.

Definition ip_network (s : string) : option (Z * Z) :=
  match split "/" s with
  | [ip; len] =>
      base ← ip_address ip; n ← decimal len;
      if (n <=? 32)%Z then Some (base, n) else None
  | _ => None
  end.

Definition net_contains (n : Z * Z) (a : Z) : bool :=
  (Z.shiftr a (32 - n.2) =? Z.shiftr n.1 (32 - n.2))%Z.

Definition cfg : config :=
  {| hooks_path := Some "/srv/hooks";
     github_ips_only := None;
     allow_loopback := None;
     enforce_secret := Some "s3cret";
     return_scripts_info := None |}.

(** The upstream service knows one version of the list, tagged v2. *)
Definition upstream (if_none_match : string) : response :=
  if String.eqb if_none_match "v2"
  then {| status_code := 304; headers_eTag := None; json_hooks := None |}
  else {| status_code := 200; headers_eTag := Some "v2";
          json_hooks := Some ["192.30.252.0/22"; "140.82.112.0/20"] |}.

(** The status codes with an exception class in
    [werkzeug.exceptions]. *)
Definition default_exceptions : list Z :=
  [400; 401; 403; 404; 405; 406; 408; 409; 410; 411; 412; 413; 414; 415;
   416; 417; 418; 422; 423; 424; 428; 429; 431; 451;
   500; 501; 502; 503; 504; 505]%Z.

(** Python 2.7.18.  Hooks [push] and [all] are installed; [push] cannot
    be started. *)
Definition E : env :=
  {| path := "/srv";
     hexversion := 0x020712F0;
     http_exception := fun code => bool_decide (code ∈ default_exceptions);
     config_json := cfg;
     meta_service := upstream;
     executable_file := fun s =>
       String.eqb s "/srv/hooks/push" || String.eqb s "/srv/hooks/all";
     mkstemp := fun _ => "/tmp/tmpq3x9wl";
     popen := fun scr _ _ =>
       if String.eqb scr "/srv/hooks/push" then SpawnFails
       else Exits 0 "ok" "" |}.

Definition w0 : world :=
  {| ghm_ips := []; ghm_etag := ""; files := ∅; log := [] |}.

Definition serve : request -> M body :=
  index str_of utf8_decode Z (Z * Z)%type
    ip_address ip_network net_contains E.

Definition post (event : option string) (signature : option string)
    (payload : json) : request :=
  {| method := "POST";
     access_route := ["192.30.253.17"];
     X_Hub_Signature := signature;
     X_GitHub_Event := event;
     data := "{}";
     get_json := Some payload |}.

Definition signed : option string :=
  Some "sha1=e7e0225292f975eab7d48999ea520020ef91b18d".

(** The same installation when the upstream service refuses the fetch. *)
Definition E_limited : env :=
  {| path := path E;
     hexversion := hexversion E;
     http_exception := http_exception E;
     config_json := cfg;
     meta_service := fun _ =>
       {| status_code := 403; headers_eTag := None; json_hooks := None |};
     executable_file := executable_file E;
     mkstemp := mkstemp E;
     popen := popen E |}.

(** The world once the allow-list was fetched. *)
Definition fetched : world :=
  {| ghm_ips := ["192.30.252.0/22"; "140.82.112.0/20"];
     ghm_etag := "v2"; files := ∅; log := [Fetch ""] |}.

Definition run_hooks : config -> string -> string -> json -> json -> json
    -> M body :=
  dispatch str_of utf8_decode E.

(** A push to main of repo, without the 'deleted' field. *)
Definition push_main : json :=
  JObj [("ref", JStr "refs/heads/main");
        ("repository", JObj [("name", JStr "repo")])].

(** The creation of a tag. *)
Definition tag_created : json :=
  JObj [("ref_type", JStr "tag"); ("ref", JStr "refs/tags/v1.0")].

Definition of_repo : json :=
  JObj [("repository", JObj [("name", JStr "repo")])].

End Sample.

(** ** More requests and installations *)
Module Cases.

(** A request like [Sample.post], from an address outside the ranges. *)
Definition outsider : request :=
  {| method := "POST";
     access_route := ["203.0.113.9"];
     X_Hub_Signature := Sample.signed;
     X_GitHub_Event := Some "push";
     data := "{}";
     get_json := Some Sample.push_main |}.

(** A signed push whose body does not parse. *)
Definition unparsed : request :=
  {| method := "POST";
     access_route := ["192.30.253.17"];
     X_Hub_Signature := Sample.signed;
     X_GitHub_Event := Some "push";
     data := "{}";
     get_json := None |}.

Definition cfg_loopback : config :=
  {| hooks_path := Some "/srv/hooks";
     github_ips_only := None;
     allow_loopback := Some true;
     enforce_secret := Some "s3cret";
     return_scripts_info := None |}.


(** No source check and no secret. *)
Definition cfg_open : config :=
  {| hooks_path := Some "/srv/hooks";
     github_ips_only := Some false;
     allow_loopback := None;
     enforce_secret := None;
     return_scripts_info := None |}.

Definition E_open : env :=
  {| path := path Sample.E;
     hexversion := hexversion Sample.E;
     http_exception := http_exception Sample.E;
     config_json := cfg_open;
     meta_service := meta_service Sample.E;
     executable_file := executable_file Sample.E;
     mkstemp := mkstemp Sample.E;
     popen := popen Sample.E |}.

(** The upstream service answers 200 with a new token and a body
    without 'hooks', and 304 to that token. *)
Definition E_no_hooks : env :=
  {| path := path Sample.E;
     hexversion := hexversion Sample.E;
     http_exception := http_exception Sample.E;
     config_json := Sample.cfg;
     meta_service := fun if_none_match =>
       if String.eqb if_none_match "v3"
       then {| status_code := 304; headers_eTag := None; json_hooks := None |}
       else {| status_code := 200; headers_eTag := Some "v3";
               json_hooks := None |};
     executable_file := executable_file Sample.E;
     mkstemp := mkstemp Sample.E;
     popen := popen Sample.E |}.

Definition serve_open : request -> M body :=
  index Sample.str_of Sample.utf8_decode Z (Z * Z)%type
    Sample.ip_address Sample.ip_network Sample.net_contains E_open.

(** The installation of [Sample.E] under Python 3.11. *)
Definition E_python3 : env :=
  {| path := path Sample.E;
     hexversion := 0x030B00F0;
     http_exception := http_exception Sample.E;
     config_json := Sample.cfg;
     meta_service := meta_service Sample.E;
     executable_file := executable_file Sample.E;
     mkstemp := mkstemp Sample.E;
     popen := popen Sample.E |}.

(** The upstream service answers 202, a status without exception
    class. *)
Definition E_accepted : env :=
  {| path := path Sample.E;
     hexversion := hexversion Sample.E;
     http_exception := http_exception Sample.E;
     config_json := Sample.cfg;
     meta_service := fun _ =>
       {| status_code := 202; headers_eTag := None; json_hooks := None |};
     executable_file := executable_file Sample.E;
     mkstemp := mkstemp Sample.E;
     popen := popen Sample.E |}.

(** A signature header whose digest part has the code point 233. *)
Definition latin1_signature : string :=
  "sha1=caf" +:+ String (ascii_of_nat 233) "".

(** A push to main of repo that deletes the branch. *)
Definition push_deleted : json :=
  JObj [("ref", JStr "refs/heads/main"); ("deleted", JBool true);
        ("repository", JObj [("name", JStr "repo")])].

Definition branch_created : json :=
  JObj [("ref_type", JStr "branch"); ("ref", JStr "feature/login")].

Definition pull_request_opened : json :=
  JObj [("action", JStr "opened");
        ("pull_request",
         JObj [("head", JObj [("ref", JStr "topic")]);
               ("base", JObj [("ref", JStr "develop")])])].

Definition push_feature : list (string * json) :=
  [("ref", JStr "refs/heads/feature/login")].

Definition push_short : list (string * json) := [("ref", JStr "main")].

End Cases.

(** * Properties *)

(** ** The helpers on explicit inputs *)

Example split_signature :
  split "=" "sha1=e7e0" = ["sha1"; "e7e0"]
  /\ split "=" "sha1" = ["sha1"]
  /\ split "=" "sha1=ab=cd" = ["sha1"; "ab"; "cd"]
  /\ split "=" "" = [""].
Proof. by repeat split. Qed.

Example splitn_ref :
  splitn "/" 2 "refs/heads/main" = ["refs"; "heads"; "main"]
  /\ splitn "/" 2 "refs/heads/feature/login" = ["refs"; "heads"; "feature/login"]
  /\ splitn "/" 2 "main" = ["main"].
Proof. by repeat split. Qed.

Example join_hooks :
  join "/srv/hooks" "push" = "/srv/hooks/push"
  /\ join "/srv/hooks/" "push" = "/srv/hooks/push"
  /\ join "" "push" = "push"
  /\ join "/srv/hooks" "/bin/true" = "/bin/true"
  /\ basename "/srv/hooks/push-repo" = "push-repo".
Proof. by repeat split. Qed.

(** The test cases of RFC 3174 and RFC 2202. *)
Example sha1_abc :
  Hmac.hex (Hmac.sha1 (Hmac.bytes_of "abc"))
  = "a9993e364706816aba3e25717850c26c9cd0d89d".
Proof. vm_compute. reflexivity. Qed.

Example hmac_sha1_jefe :
  hmac_sha1_hexdigest "Jefe" "what do ya want for nothing?"
  = "effcdf6ae5eb2fa2d27416d5f184df9c259a7c79".
Proof. vm_compute. reflexivity. Qed.

Example extract_push_main :
  extract_branch "push" Sample.push_main = Ok (JStr "main")
  /\ extract_name Sample.push_main = Ok (JStr "repo").
Proof. by split. Qed.

Example extract_pull_request :
  extract_branch "pull_request"
    (JObj [("pull_request",
            JObj [("head", JObj [("ref", JStr "topic")]);
                  ("base", JObj [("ref", JStr "develop")])])])
  = Ok (JStr "develop").
Proof. reflexivity. Qed.

Example sample_ping :
  (Sample.serve (Sample.post None Sample.signed JNull) Sample.w0).1
  = Ok (Document (JObj [("msg", JStr "pong")])).
Proof. vm_compute. reflexivity. Qed.

(** ** Strings and paths *)

Lemma split_nonempty sep s : split sep s <> [].
Proof.
  destruct s as [|c s]; simpl; [done|].
  destruct (Ascii.eqb c sep); [done|]. by destruct (split sep s).
Qed.

Lemma split_no_char sep s : no_char sep s = true -> split sep s = [s].
Proof.
  induction s as [|c s IH]; simpl; [done|].
  intros [Hc Hs]%andb_true_iff. apply negb_true_iff in Hc.
  by rewrite Hc, IH.
Qed.

(** Cutting at a separator that is there: the pieces before it, then the
    pieces after it. *)
Lemma split_app_sep sep a b :
  split sep (a +:+ String sep b) = split sep a ++ split sep b.
Proof.
  induction a as [|c a IH]; simpl.
  - by rewrite Ascii.eqb_refl.
  - destruct (Ascii.eqb c sep); [by rewrite IH|].
    rewrite IH. pose proof (split_nonempty sep a).
    by destruct (split sep a).
Qed.

Lemma append_assoc (a b c : string) : (a +:+ b) +:+ c = a +:+ (b +:+ c).
Proof. induction a as [|x a IH]; simpl; [done|]. by rewrite IH. Qed.

Lemma append_ne_self (s t : string) : t <> "" -> s +:+ t <> s.
Proof.
  intros Ht. induction s as [|c s IH]; simpl; [done|].
  intros [=]. by apply IH.
Qed.

Lemma ends_with_slash_inv s :
  ends_with_slash s = true -> exists a, s = a +:+ "/".
Proof.
  induction s as [|c s IH]; [done|]. destruct s as [|d s].
  - simpl. intros ->%Ascii.eqb_eq. by exists "".
  - intros H. destruct (IH H) as [a Ha]. exists (String c a).
    simpl. by rewrite <- Ha.
Qed.

Lemma join_relative a b :
  starts_with_slash b = false -> join a b = dir_prefix a +:+ b.
Proof.
  intros Hb. unfold join, dir_prefix. rewrite Hb.
  destruct (String.eqb a "" || ends_with_slash a); [done|].
  by rewrite append_assoc.
Qed.

Lemma no_char_starts_with_slash x :
  no_char "/" x = true -> starts_with_slash x = false.
Proof.
  destruct x as [|c x]; simpl; [done|].
  intros [Hc _]%andb_true_iff. by apply negb_true_iff in Hc.
Qed.

(** A hook named without a slash is found again by [basename]. *)
Lemma basename_join hooks x :
  no_char "/" x = true -> basename (join hooks x) = x.
Proof.
  intros Hx. rewrite join_relative by by apply no_char_starts_with_slash.
  unfold basename, dir_prefix.
  destruct (String.eqb_spec hooks "") as [->|Hne]; simpl.
  - by rewrite split_no_char.
  - assert (exists a, (if ends_with_slash hooks then hooks else hooks +:+ "/")
                      = a +:+ "/") as [a ->].
    { destruct (ends_with_slash hooks) eqn:Hs; [|by eexists].
      by apply ends_with_slash_inv. }
    rewrite append_assoc. simpl. rewrite split_app_sep, last_app.
    by rewrite (split_no_char _ x Hx).
Qed.

Lemma starts_with_slash_append e x :
  starts_with_slash e = false ->
  starts_with_slash (e +:+ String "-" x) = false.
Proof. by destruct e. Qed.

Lemma dash_name_ne_all e x : e +:+ String "-" x <> "all".
Proof. by destruct e as [|a [|b [|c [|d e]]]]. Qed.

Lemma split_length sep s : length (split sep s) = S (count_char sep s).
Proof.
  induction s as [|c s IH]; simpl; [done|].
  destruct (Ascii.eqb c sep); simpl; [by rewrite IH|].
  pose proof (split_nonempty sep s).
  destruct (split sep s); [done|]. by rewrite <- IH.
Qed.

(** The unpacking [a, b = s.split(sep)] succeeds only with one separator. *)
Lemma split_not_two {A} sep s (two : string -> string -> A) (other : A) :
  count_char sep s <> 1 ->
  match split sep s with
  | [a; b] => two a b
  | _ => other
  end = other.
Proof.
  intros Hn. pose proof (split_length sep s) as Hl.
  destruct (split sep s) as [|a [|b [|c l]]]; try done.
  exfalso. apply Hn. simpl in Hl. lia.
Qed.

Lemma split_two sep a b :
  no_char sep a = true -> no_char sep b = true ->
  split sep (a +:+ String sep b) = [a; b].
Proof.
  intros Ha Hb. by rewrite split_app_sep, !split_no_char.
Qed.

Lemma split_one_inv sep s b : split sep s = [b] -> s = b.
Proof.
  revert b. induction s as [|c s IH]; intros b; simpl; [by intros [=]|].
  destruct (Ascii.eqb c sep).
  - intros [= _ H]. by apply split_nonempty in H.
  - pose proof (split_nonempty sep s).
    destruct (split sep s) as [|x t]; [done|].
    intros [= <- ->]. by rewrite (IH x).
Qed.

Lemma split_two_inv sep s a b :
  split sep s = [a; b] -> s = a +:+ String sep b.
Proof.
  revert a. induction s as [|c s IH]; intros a; simpl; [by intros [=]|].
  destruct (Ascii.eqb_spec c sep) as [->|_].
  - intros [= <- H]. by rewrite (split_one_inv _ _ _ H).
  - pose proof (split_nonempty sep s).
    destruct (split sep s) as [|x t]; [done|].
    intros [= <- ->]. by rewrite (IH x).
Qed.

(** ** Hook resolution *)

Lemma check_permissions_spec E l w :
  check_permissions E l w
  = (Ok (filter (fun s => executable_file E s) l), emits (Probe <$> l) w).
Proof.
  revert w. induction l as [|s l IH]; intros w; [done|].
  cbn [check_permissions]. unfold mbind at 1. cbn [modify].
  unfold mbind at 1. rewrite IH. cbn [ret fmap list_fmap emits foldl].
  rewrite filter_cons. by destruct (executable_file E s).
Qed.

Lemma candidates_hook_names str_of hooks event name branch :
  candidates str_of hooks event name branch
  = join hooks <$> hook_names str_of event name branch.
Proof.
  unfold candidates, hook_names.
  by destruct (truthy branch && truthy name), (truthy name).
Qed.

Lemma hook_names_relative str_of event name branch :
  starts_with_slash event = false ->
  Forall (fun x => starts_with_slash x = false)
    (hook_names str_of event name branch).
Proof.
  intros He. unfold hook_names.
  destruct (truthy branch && truthy name), (truthy name); simpl;
    repeat constructor; try done; by apply starts_with_slash_append.
Qed.

Lemma hook_names_NoDup str_of event name branch :
  event <> "all" -> NoDup (hook_names str_of event name branch).
Proof.
  intros He. unfold hook_names.
  assert (forall x, event +:+ String "-" x <> event) as Hlonger.
  { intros x. by apply append_ne_self. }
  assert (forall x y, event +:+ String "-" (x +:+ String "-" y)
                      <> event +:+ String "-" x) as Hlonger2.
  { intros x y H. apply (inj (String.app event)) in H.
    injection H as H. by apply append_ne_self in H. }
  pose proof (dash_name_ne_all event) as Hall.
  destruct (truthy branch && truthy name), (truthy name); simpl;
    repeat (apply NoDup_cons; split); try apply NoDup_nil_2;
    rewrite ?elem_of_cons, ?elem_of_nil;
    intuition (try congruence; eauto).
Qed.

(** [C6] For event "push", repository "repo" and branch "main" the
    candidates are the hooks named push-repo-main, push-repo, push and
    all of the hooks directory, in that order; the permission check
    returns a sublist of them, in the same order. *)
Theorem candidates_push_repo_main str_of E hooks w :
  let scripts := candidates str_of hooks "push" (JStr "repo") (JStr "main") in
  scripts = join hooks <$> ["push-repo-main"; "push-repo"; "push"; "all"]
  /\ basename <$> scripts = ["push-repo-main"; "push-repo"; "push"; "all"]
  /\ exists kept, (check_permissions E scripts w).1 = Ok kept
                  /\ kept `sublist_of` scripts.
Proof.
  split; [done|]. split.
  - cbn [candidates truthy fmt andb negb String.eqb app fmap list_fmap].
    simpl String.eqb. cbn [negb andb app].
    by rewrite !basename_join.
  - rewrite check_permissions_spec. eexists. split; [done|].
    apply sublist_filter.
Qed.

(** [C5, as amended] The candidate list has one entry for each rule that
    applies and nothing removes a repeated path: for an event type that
    is a relative name, the candidates are pairwise different exactly
    when the event type is not "all". *)
Theorem candidates_NoDup_iff str_of hooks event name branch :
  starts_with_slash event = false ->
  NoDup (candidates str_of hooks event name branch) <-> event <> "all".
Proof.
  intros Hrel. split.
  - intros Hnd ->. unfold candidates in Hnd.
    apply NoDup_app in Hnd as (_ & _ & Hnd).
    apply NoDup_app in Hnd as (_ & _ & Hnd).
    apply NoDup_cons in Hnd as [Hnd _]. apply Hnd. by left.
  - intros Hne. rewrite candidates_hook_names.
    pose proof (hook_names_relative str_of event name branch Hrel) as Hr.
    rewrite (Forall_fmap_ext_1 (join hooks) (String.app (dir_prefix hooks))).
    + apply (NoDup_fmap_2 _). by apply hook_names_NoDup.
    + eapply Forall_impl; [exact Hr|]. intros x Hx. by apply join_relative.
Qed.

Section Properties.

Context (str_of : json -> string)
  (utf8_decode : string -> option string) (addr net : Type)
  (ip_address : string -> option addr) (ip_network : string -> option net)
  (net_contains : net -> addr -> bool) (E : env).

Local Abbreviation check_source :=
  (check_source addr net ip_address ip_network net_contains E).
Local Abbreviation dispatch := (dispatch str_of utf8_decode E).
Local Abbreviation handle_event := (handle_event str_of utf8_decode E).
Local Abbreviation index :=
  (index str_of utf8_decode addr net
     ip_address ip_network net_contains E).
Local Abbreviation python3 := (python3 E).
Local Abbreviation str_text := (str_text E).
Local Abbreviation hmac_new := (hmac_new E).
Local Abbreviation check_signature := (check_signature E).

(** ** Branch and repository extraction *)

(** [C3, as amended] The first rule applies as soon as the payload has a
    'ref_type' field: when its value is not "branch", no later rule is
    tried and the branch is absent, for every event type. *)
Theorem ref_type_not_branch_gives_no_branch event kvs ref_type :
  assoc "ref_type" kvs = Some ref_type ->
  is_str ref_type "branch" = false ->
  extract_branch event (JObj kvs) = Ok JNull.
Proof.
  intros Hrt Hnb. unfold extract_branch. cbn [contains bind].
  rewrite bool_decide_eq_true_2 by by rewrite Hrt.
  cbn [getitem]. rewrite Hrt. cbn [bind]. by rewrite Hnb.
Qed.

(** When the value is "branch", the branch is the 'ref' field. *)
Lemma ref_type_branch_gives_ref event kvs ref :
  assoc "ref_type" kvs = Some (JStr "branch") ->
  assoc "ref" kvs = Some ref ->
  extract_branch event (JObj kvs) = Ok ref.
Proof.
  intros Hrt Href. unfold extract_branch. cbn [contains bind].
  rewrite bool_decide_eq_true_2 by by rewrite Hrt.
  cbn [getitem]. rewrite Hrt. cbn [bind is_str]. simpl String.eqb.
  rewrite Href. by destruct ref.
Qed.

(** A [KeyError] in the rules is caught: a push payload without 'ref'
    has no branch. *)
Lemma push_without_ref_gives_no_branch kvs :
  assoc "ref_type" kvs = None -> assoc "pull_request" kvs = None ->
  assoc "ref" kvs = None ->
  extract_branch "push" (JObj kvs) = Ok JNull.
Proof.
  intros Hrt Hpr Href. unfold extract_branch. cbn [contains bind].
  rewrite bool_decide_eq_false_2 by (rewrite Hrt; by intros [? ?]).
  cbn [bind]. rewrite bool_decide_eq_false_2 by (rewrite Hpr; by intros [? ?]).
  simpl String.eqb. cbn [getitem]. by rewrite Href.
Qed.

(** ** Signature verification *)

(** With a non-empty secret the check is the body of its [if]; the two
    arms of the [hexversion] test do the same. *)
Lemma check_signature_enforced cfg rq secret :
  enforce_secret cfg = Some secret -> secret <> "" ->
  check_signature cfg rq =
    match X_Hub_Signature rq with
    | None => Abort 403
    | Some header_signature =>
        match split "=" header_signature with
        | [sha_name; signature] =>
            if negb (String.eqb sha_name "sha1") then Abort 501
            else
              key <- str_text secret ;;
              hexdigest <- hmac_new key (data rq) ;;
              signature <- str_text signature ;;
              if String.eqb hexdigest signature then Ok tt else Abort 403
        | _ => Raise ValueError
        end
    end.
Proof.
  intros Hs Hne%String.eqb_neq. unfold check_signature.
  rewrite Hs. simpl. rewrite Hne. cbn [negb].
  destruct (X_Hub_Signature rq) as [h|]; [|done].
  destruct (split "=" h) as [|a [|b [|c l]]]; try done.
  destruct (negb (String.eqb a "sha1")); [done|].
  destruct (str_text secret) as [key| |]; try done. cbn [bind].
  destruct (hmac_new key (data rq)) as [d| |]; try done. cbn [bind].
  unfold compare_digest.
  destruct (0x020707F0 <=? hexversion E)%Z;
    destruct (str_text b) as [sg| |]; try done; cbn [bind];
    by destruct (String.eqb d sg).
Qed.

(** The unpacking of the header fails unless it has exactly one '='. *)
Lemma check_signature_unpack cfg rq secret header :
  enforce_secret cfg = Some secret -> secret <> "" ->
  X_Hub_Signature rq = Some header ->
  count_char "=" header <> 1 ->
  check_signature cfg rq = Raise ValueError.
Proof.
  intros Hs Hne Hh Hc. rewrite (check_signature_enforced _ _ _ Hs Hne), Hh.
  by apply split_not_two.
Qed.

Lemma index_after_source rq w w1 :
  method rq = "POST" ->
  check_source (config_json E) rq w = (Ok tt, w1) ->
  index rq w =
    (lift (check_signature (config_json E) rq) ;;;
     let event := default "ping" (X_GitHub_Event rq) in
     if String.eqb event "ping"
     then ret (Document (JObj [("msg", JStr "pong")]))
     else handle_event (config_json E)
            (default (join (path E) "hooks") (hooks_path (config_json E)))
            event rq) w1.
Proof.
  intros Hm Hsrc. unfold index. rewrite Hm, String.eqb_refl.
  cbn [negb]. unfold mbind at 1. by rewrite Hsrc.
Qed.

(** [C10] With a non-empty secret, a signature header that does not have
    exactly one '=' makes the unpacking of its split raise [ValueError]:
    the check ends so, and a request that passed the source check ends
    with this uncaught exception, not with [abort(403)] or [abort(501)]. *)
Theorem signature_without_one_equals_raises rq secret header :
  enforce_secret (config_json E) = Some secret -> secret <> "" ->
  X_Hub_Signature rq = Some header ->
  count_char "=" header <> 1 ->
  check_signature (config_json E) rq = Raise ValueError
  /\ forall w w1, method rq = "POST" ->
       check_source (config_json E) rq w = (Ok tt, w1) ->
       index rq w = (Raise ValueError, w1).
Proof.
  intros Hs Hne Hh Hc.
  pose proof (check_signature_unpack _ _ _ _ Hs Hne Hh Hc) as Hsig.
  split; [done|]. intros w w1 Hm Hsrc.
  rewrite (index_after_source _ _ _ Hm Hsrc).
  unfold mbind, lift. by rewrite Hsig.
Qed.

(** [C4, at a failing input] A header made of the tag sha1, an '=' and a
    digest part that holds a further '=' does not match the digest of the
    body; the check ends with [ValueError], not with [abort(403)]. *)
Theorem signature_digest_with_equals_raises cfg rq secret :
  enforce_secret cfg = Some secret -> secret <> "" ->
  X_Hub_Signature rq = Some "sha1=ab=cd" ->
  check_signature cfg rq = Raise ValueError
  /\ check_signature cfg rq <> Abort 403.
Proof.
  intros Hs Hne Hh.
  assert (check_signature cfg rq = Raise ValueError) as ->; [|done].
  by eapply check_signature_unpack.
Qed.

(** A hexadecimal digest has no '=' and is ASCII. *)
Lemma hex_digit_not_equals n : Ascii.eqb (Hmac.hex_digit n) "=" = false.
Proof. unfold Hmac.hex_digit. by repeat case_match. Qed.

Lemma hex_no_equals bytes : no_char "=" (Hmac.hex bytes) = true.
Proof.
  induction bytes as [|b rest IH]; [done|].
  cbn [Hmac.hex no_char]. by rewrite !hex_digit_not_equals, IH.
Qed.

Lemma hexdigest_no_equals key msg :
  no_char "=" (hmac_sha1_hexdigest key msg) = true.
Proof. apply hex_no_equals. Qed.

Lemma hex_digit_is_ascii n s :
  is_ascii (String (Hmac.hex_digit n) s) = is_ascii s.
Proof. unfold Hmac.hex_digit. by repeat case_match. Qed.

Lemma hexdigest_is_ascii key msg :
  is_ascii (hmac_sha1_hexdigest key msg) = true.
Proof.
  unfold hmac_sha1_hexdigest.
  induction (Hmac.hmac (Hmac.bytes_of key) (Hmac.bytes_of msg))
    as [|b rest IH]; [done|].
  cbn [Hmac.hex]. by rewrite !hex_digit_is_ascii.
Qed.

(** The two library calls under Python 2 and under Python 3. *)
Lemma str_text_python2 s :
  python3 = false ->
  str_text s = if is_ascii s then Ok s else Raise UnicodeEncodeError.
Proof. intros Hpy. unfold str_text. by rewrite Hpy. Qed.

Lemma hmac_new_python2 key msg :
  python3 = false -> hmac_new key msg = Ok (hmac_sha1_hexdigest key msg).
Proof. intros Hpy. unfold hmac_new. by rewrite Hpy. Qed.

Lemma str_text_python3 s : python3 = true -> str_text s = Ok s.
Proof. intros Hpy. unfold str_text. by rewrite Hpy. Qed.

Lemma hmac_new_python3 key msg :
  python3 = true -> hmac_new key msg = Raise TypeError.
Proof. intros Hpy. unfold hmac_new. by rewrite Hpy. Qed.

Lemma check_signature_missing cfg rq secret :
  enforce_secret cfg = Some secret -> secret <> "" ->
  X_Hub_Signature rq = None ->
  check_signature cfg rq = Abort 403.
Proof.
  intros Hs Hne Hh. by rewrite (check_signature_enforced _ _ _ Hs Hne), Hh.
Qed.

Lemma check_signature_rejects cfg rq secret tag digest :
  enforce_secret cfg = Some secret -> secret <> "" ->
  no_char "=" tag = true -> no_char "=" digest = true ->
  X_Hub_Signature rq = Some (tag +:+ String "=" digest) ->
  check_signature cfg rq =
    if negb (String.eqb tag "sha1") then Abort 501
    else
      key <- str_text secret ;;
      hexdigest <- hmac_new key (data rq) ;;
      signature <- str_text digest ;;
      if String.eqb hexdigest signature then Ok tt else Abort 403.
Proof.
  intros Hs Hne Ht Hd Hh.
  by rewrite (check_signature_enforced _ _ _ Hs Hne), Hh, split_two.
Qed.

(** Under Python 2 and with an ASCII secret, the check passes exactly on
    the header made of sha1, '=' and the digest of the body. *)
Lemma check_signature_accepts_iff cfg rq secret :
  enforce_secret cfg = Some secret -> secret <> "" ->
  python3 = false -> is_ascii secret = true ->
  check_signature cfg rq = Ok tt
  <-> X_Hub_Signature rq = Some ("sha1=" +:+ hmac_sha1_hexdigest secret (data rq)).
Proof.
  intros Hs Hne Hpy Hasc. rewrite (check_signature_enforced _ _ _ Hs Hne). split.
  - destruct (X_Hub_Signature rq) as [h|]; [|done].
    destruct (split "=" h) as [|a [|b [|c l]]] eqn:Hsp; try done.
    destruct (String.eqb_spec a "sha1") as [->|]; [|done]. cbn [negb].
    rewrite (str_text_python2 secret Hpy), Hasc. cbn [bind].
    rewrite (hmac_new_python2 _ _ Hpy). cbn [bind].
    rewrite (str_text_python2 b Hpy).
    destruct (is_ascii b); [|done]. cbn [bind].
    destruct (String.eqb_spec (hmac_sha1_hexdigest secret (data rq)) b) as [->|]; [|done].
    intros _. by rewrite (split_two_inv _ _ _ _ Hsp).
  - intros ->. change ("sha1=" +:+ ?d) with ("sha1" +:+ String "=" d).
    rewrite split_two by (done || apply hexdigest_no_equals).
    rewrite String.eqb_refl. cbn [negb].
    rewrite (str_text_python2 secret Hpy), Hasc. cbn [bind].
    rewrite (hmac_new_python2 _ _ Hpy). cbn [bind].
    rewrite (str_text_python2 _ Hpy), hexdigest_is_ascii. cbn [bind].
    by rewrite String.eqb_refl.
Qed.

(** Under Python 3, or with a secret that is not ASCII, no header passes. *)
Lemma check_signature_never cfg rq secret :
  enforce_secret cfg = Some secret -> secret <> "" ->
  python3 = true \/ is_ascii secret = false ->
  check_signature cfg rq <> Ok tt.
Proof.
  intros Hs Hne Hwhy. rewrite (check_signature_enforced _ _ _ Hs Hne).
  destruct (X_Hub_Signature rq) as [h|]; [|done].
  destruct (split "=" h) as [|a [|b [|c l]]]; try done.
  destruct (negb (String.eqb a "sha1")); [done|].
  destruct (python3) eqn:Hpy.
  - rewrite (str_text_python3 _ Hpy). cbn [bind].
    by rewrite (hmac_new_python3 _ _ Hpy).
  - destruct Hwhy as [?|Hasc]; [done|].
    by rewrite (str_text_python2 _ Hpy), Hasc.
Qed.

(** ** The allow-list cache *)

Abbreviation fetched w := (emit (Fetch (ghm_etag w)) w).

(** The refresh, case by case. *)
Lemma refresh_cases w :
  let resp := meta_service E (ghm_etag w) in
  refresh E w =
    if Z.eqb (status_code resp) 200 then
      match headers_eTag resp with
      | Some t =>
          match json_hooks resp with
          | Some l => (Ok tt, set_ips l (set_etag t (fetched w)))
          | None => (Raise (KeyError "hooks"), set_etag t (fetched w))
          end
      | None => (Raise (KeyError "etag"), fetched w)
      end
    else if negb (Z.eqb (status_code resp) 304)
         then if http_exception E (status_code resp)
              then (Abort (status_code resp), fetched w)
              else (Raise LookupError, fetched w)
         else (Ok tt, fetched w).
Proof.
  intros resp.
  unfold refresh, abort_status, mbind, gets, modify, lift, abort, raise, ret.
  fold resp.
  destruct (Z.eqb (status_code resp) 200).
  - by destruct (headers_eTag resp), (json_hooks resp).
  - destruct (Z.eqb (status_code resp) 304); [done|].
    by destruct (http_exception E (status_code resp)).
Qed.

(** The source check of a POST ends as a refresh that does not return. *)
Lemma index_refresh_aborts rq first src_ip w code w1 :
  method rq = "POST" ->
  default true (github_ips_only (config_json E)) = true ->
  access_route rq !! 0 = Some first ->
  ip_address first = Some src_ip ->
  refresh E w = (Abort code, w1) ->
  index rq w = (Abort code, w1).
Proof.
  intros Hm Hon Hfirst Hip Hr.
  unfold index. rewrite Hm, String.eqb_refl. cbn [negb].
  unfold check_source, index_list. rewrite Hon, Hfirst.
  unfold mbind at 1. unfold mbind at 1. cbn [lift].
  unfold mbind at 1. rewrite Hip. cbn [lift].
  unfold mbind at 1. by rewrite Hr.
Qed.

Lemma index_refresh_raises rq first src_ip w e w1 :
  method rq = "POST" ->
  default true (github_ips_only (config_json E)) = true ->
  access_route rq !! 0 = Some first ->
  ip_address first = Some src_ip ->
  refresh E w = (Raise e, w1) ->
  index rq w = (Raise e, w1).
Proof.
  intros Hm Hon Hfirst Hip Hr.
  unfold index. rewrite Hm, String.eqb_refl. cbn [negb].
  unfold check_source, index_list. rewrite Hon, Hfirst.
  unfold mbind at 1. unfold mbind at 1. cbn [lift].
  unfold mbind at 1. rewrite Hip. cbn [lift].
  unfold mbind at 1. by rewrite Hr.
Qed.

(** [C7, with the failing case] The refresh asks the upstream service
    with the cached token in If-None-Match.  On 304 the cached ranges and
    token stay and the cached ranges are the allow-list (also after lines
    103-107, unless the loopback range has to be appended); on 200 both
    are replaced by the fetched ones.  On any other status the request is
    aborted with that status only when Flask has an HTTP exception class
    for it: for a status that has none, [abort] raises [LookupError] and
    the request ends with this uncaught exception, not with the status
    of the upstream service. *)
Theorem refresh_by_status w :
  let resp := meta_service E (ghm_etag w) in
  log (refresh E w).2 = log w ++ [Fetch (ghm_etag w)]
  /\ (status_code resp = 304%Z ->
       refresh E w = (Ok tt, fetched w)
       /\ ghm_ips (fetched w) = ghm_ips w
       /\ ghm_etag (fetched w) = ghm_etag w
       /\ (refresh E ;;; gets ghm_ips) w = (Ok (ghm_ips w), fetched w)
       /\ forall cfg,
            default false (allow_loopback cfg) = false
            \/ loopback ∈ ghm_ips w ->
            (refresh E ;;; whitelist_with_loopback cfg) w
            = (Ok (ghm_ips w), fetched w))
  /\ (status_code resp = 200%Z ->
       forall etag ips,
         headers_eTag resp = Some etag -> json_hooks resp = Some ips ->
         refresh E w = (Ok tt, set_ips ips (set_etag etag (fetched w)))
         /\ (refresh E ;;; gets ghm_ips) w
            = (Ok ips, set_ips ips (set_etag etag (fetched w))))
  /\ (status_code resp <> 200%Z -> status_code resp <> 304%Z ->
       (http_exception E (status_code resp) = true ->
        refresh E w = (Abort (status_code resp), fetched w)
        /\ forall rq first src_ip,
             method rq = "POST" ->
             default true (github_ips_only (config_json E)) = true ->
             access_route rq !! 0 = Some first ->
             ip_address first = Some src_ip ->
             index rq w = (Abort (status_code resp), fetched w))
       /\ (http_exception E (status_code resp) = false ->
           refresh E w = (Raise LookupError, fetched w)
           /\ forall rq first src_ip,
                method rq = "POST" ->
                default true (github_ips_only (config_json E)) = true ->
                access_route rq !! 0 = Some first ->
                ip_address first = Some src_ip ->
                index rq w = (Raise LookupError, fetched w))).
Proof.
  intros resp. pose proof (refresh_cases w) as Hr. cbv zeta in Hr.
  fold resp in Hr. split; [|split; [|split]].
  - rewrite Hr. destruct (Z.eqb (status_code resp) 200).
    + by destruct (headers_eTag resp), (json_hooks resp).
    + destruct (Z.eqb (status_code resp) 304); [done|].
      by destruct (http_exception E (status_code resp)).
  - intros H304. unfold mbind. rewrite Hr, H304. cbn.
    do 4 (split; [done|]). intros cfg Hcfg.
    unfold whitelist_with_loopback, mbind, gets. cbn.
    destruct Hcfg as [-> | Hin]; [done|].
    by rewrite (bool_decide_eq_true_2 _ Hin), andb_false_r.
  - intros H200 etag ips Het Hips. unfold mbind.
    rewrite Hr, H200, Het, Hips. by cbn.
  - intros Hn200%Z.eqb_neq Hn304%Z.eqb_neq.
    rewrite Hn200, Hn304 in Hr. cbn [negb] in Hr. split.
    + intros Hknown. rewrite Hknown in Hr. split; [done|].
      intros rq first src_ip Hm Hon Hfirst Hip.
      by apply (index_refresh_aborts _ _ _ _ _ _ Hm Hon Hfirst Hip).
    + intros Hunknown. rewrite Hunknown in Hr. split; [done|].
      intros rq first src_ip Hm Hon Hfirst Hip.
      by apply (index_refresh_raises _ _ _ _ _ _ Hm Hon Hfirst Hip).
Qed.

(** The source check touches no file and logs nothing but a fetch. *)
Ltac same_files_one_fetch :=
  intros [= _ <-]; split;
  [reflexivity | first [left; reflexivity | right; reflexivity]].

Lemma check_source_effects cfg rq w r w1 :
  check_source cfg rq w = (r, w1) ->
  files w1 = files w
  /\ (log w1 = log w \/ log w1 = log w ++ [Fetch (ghm_etag w)]).
Proof.
  unfold check_source, whitelist_with_loopback.
  destruct (default true (github_ips_only cfg)); [|same_files_one_fetch].
  unfold mbind at 1. cbn [lift].
  destruct (index_list (access_route rq) 0) as [first| |];
    [|same_files_one_fetch..].
  unfold mbind at 1. cbn [lift].
  destruct (ip_address first) as [src_ip|]; [|same_files_one_fetch].
  unfold mbind at 1. rewrite refresh_cases. cbv zeta.
  set (resp := meta_service E (ghm_etag w)).
  destruct (Z.eqb (status_code resp) 200).
  - destruct (headers_eTag resp) as [t|]; [|same_files_one_fetch].
    destruct (json_hooks resp) as [l|]; [|same_files_one_fetch].
    unfold mbind, gets, modify, lift, abort, ret.
    repeat case_match; simplify_eq; same_files_one_fetch.
  - destruct (Z.eqb (status_code resp) 304); cbn [negb];
      [|destruct (http_exception E (status_code resp));
        same_files_one_fetch].
    unfold mbind, gets, modify, lift, abort, ret.
    repeat case_match; simplify_eq; same_files_one_fetch.
Qed.

Lemma index_after_checks rq w w1 :
  method rq = "POST" ->
  check_source (config_json E) rq w = (Ok tt, w1) ->
  check_signature (config_json E) rq = Ok tt ->
  index rq w =
    (let event := default "ping" (X_GitHub_Event rq) in
     if String.eqb event "ping"
     then ret (Document (JObj [("msg", JStr "pong")]))
     else handle_event (config_json E)
            (default (join (path E) "hooks") (hooks_path (config_json E)))
            event rq) w1.
Proof.
  intros Hm Hsrc Hsig. rewrite (index_after_source _ _ _ Hm Hsrc).
  unfold mbind at 1. by rewrite Hsig.
Qed.

(** ** Ping *)

(** [C8] A POST request that passes the source check and the signature
    check and whose event header is "ping" or missing is answered with
    the document msg: pong.  The world is the one the checks left:
    whatever the body and the installed hooks are, nothing is parsed,
    probed, written or run. *)
Theorem ping_answers_pong rq w w1 :
  method rq = "POST" ->
  check_source (config_json E) rq w = (Ok tt, w1) ->
  check_signature (config_json E) rq = Ok tt ->
  X_GitHub_Event rq = None \/ X_GitHub_Event rq = Some "ping" ->
  index rq w = (Ok (Document (JObj [("msg", JStr "pong")])), w1)
  /\ files w1 = files w
  /\ (log w1 = log w \/ log w1 = log w ++ [Fetch (ghm_etag w)]).
Proof.
  intros Hm Hsrc Hsig Hev. split.
  - rewrite (index_after_checks _ _ _ Hm Hsrc Hsig).
    by destruct Hev as [-> | ->].
  - by eapply check_source_effects.
Qed.

(** ** Push without 'deleted' *)

Lemma extract_branch_not_abort event payload code :
  extract_branch event payload <> Abort code.
Proof.
  unfold extract_branch, except_KeyError, bind, contains, getitem, index_list.
  repeat case_match; congruence.
Qed.

Lemma extract_name_not_abort payload code :
  extract_name payload <> Abort code.
Proof.
  unfold extract_name, bind, contains, getitem.
  repeat case_match; congruence.
Qed.

Lemma push_delete_without_deleted kvs :
  assoc "deleted" kvs = None ->
  push_delete "push" (JObj kvs) = Raise (KeyError "deleted").
Proof. intros H. unfold push_delete. cbn. by rewrite H. Qed.

(** [C9, as amended] For a push event whose payload is a mapping without
    'deleted' key, the handler ends with an uncaught exception right
    after parsing the body, without answering and without probing or
    running a hook.  The exception is the [KeyError] of the push-delete
    test when the extraction of branch and name came to its end; when
    the extraction raises, the request ends with that exception and the
    test of line 195 is not reached. *)
Theorem push_without_deleted_raises rq kvs w w1 :
  method rq = "POST" ->
  check_source (config_json E) rq w = (Ok tt, w1) ->
  check_signature (config_json E) rq = Ok tt ->
  X_GitHub_Event rq = Some "push" ->
  get_json rq = Some (JObj kvs) ->
  assoc "deleted" kvs = None ->
  push_delete "push" (JObj kvs) = Raise (KeyError "deleted")
  /\ exists e, index rq w = (Raise e, emit ParseBody w1)
       /\ (forall branch name,
             extract_branch "push" (JObj kvs) = Ok branch ->
             extract_name (JObj kvs) = Ok name ->
             e = KeyError "deleted")
       /\ (forall e',
             extract_branch "push" (JObj kvs) = Raise e' -> e = e')
       /\ (forall branch e',
             extract_branch "push" (JObj kvs) = Ok branch ->
             extract_name (JObj kvs) = Raise e' -> e = e').
Proof.
  intros Hm Hsrc Hsig Hev Hjson Hdel.
  pose proof (push_delete_without_deleted kvs Hdel) as Hpd.
  split; [done|].
  rewrite (index_after_checks _ _ _ Hm Hsrc Hsig), Hev.
  change (default "ping" (Some "push")) with "push".
  cbv zeta. change (String.eqb "push" "ping") with false. cbv iota.
  unfold handle_event. rewrite Hjson.
  unfold mbind, modify, ret, lift. rewrite Hpd.
  pose proof (extract_branch_not_abort "push" (JObj kvs)) as Hb.
  pose proof (extract_name_not_abort (JObj kvs)) as Hn.
  destruct (extract_branch "push" (JObj kvs)) as [branch|e|c];
    [|exists e; repeat split; intros; congruence|by destruct (Hb c)].
  destruct (extract_name (JObj kvs)) as [name|e|c];
    [|exists e; repeat split; intros; congruence|by destruct (Hn c)].
  exists (KeyError "deleted"). repeat split; intros; congruence.
Qed.

(** ** The temporary payload file *)

(** A request that is not a ping and not a deleted push goes to the
    hooks with the branch and the name that were extracted. *)
Lemma index_dispatches rq w w1 event payload branch name :
  method rq = "POST" ->
  check_source (config_json E) rq w = (Ok tt, w1) ->
  check_signature (config_json E) rq = Ok tt ->
  X_GitHub_Event rq = Some event -> event <> "ping" ->
  get_json rq = Some payload ->
  extract_branch event payload = Ok branch ->
  extract_name payload = Ok name ->
  push_delete event payload = Ok false ->
  index rq w =
    dispatch (config_json E)
      (default (join (path E) "hooks") (hooks_path (config_json E)))
      event payload name branch (emit ParseBody w1).
Proof.
  intros Hm Hsrc Hsig Hev Hping%String.eqb_neq Hjson Hb Hn Hd.
  rewrite (index_after_checks _ _ _ Hm Hsrc Hsig), Hev.
  change (default "ping" (Some event)) with event.
  cbv zeta. rewrite Hping. unfold handle_event. rewrite Hjson.
  unfold mbind, modify, ret, lift. by rewrite Hb, Hn, Hd.
Qed.

Lemma emits_cons a l w : emits (a :: l) w = emits l (emit a w).
Proof. done. Qed.

Lemma files_emits l w : files (emits l w) = files w.
Proof.
  revert w. induction l as [|a l IH]; intros w; [done|].
  by rewrite emits_cons, IH.
Qed.

Lemma log_emits l w : log (emits l w) = log w ++ l.
Proof.
  revert w. induction l as [|a l IH]; intros w.
  - by rewrite app_nil_r.
  - rewrite emits_cons, IH. cbn. by rewrite <- app_assoc.
Qed.

Lemma dispatch_runs cfg hooks event payload name branch w scr rest :
  filter (fun s => executable_file E s)
    (candidates str_of hooks event name branch) = scr :: rest ->
  dispatch cfg hooks event payload name branch w =
    (ran <~ run_scripts utf8_decode E (mkstemp E (files w)) event
              (scr :: rest) ∅ ;;
     remove (mkstemp E (files w)) ;;;
     if default false (return_scripts_info cfg)
     then ret (ScriptsInfo ran)
     else ret (Document (JObj [("status", JStr "done")])))
      (payload_saved E (candidates str_of hooks event name branch) payload w).
Proof.
  intros Hkept. unfold dispatch. unfold mbind at 1.
  rewrite check_permissions_spec, Hkept.
  unfold mbind at 1. unfold save_payload, mbind, gets, modify, ret.
  by rewrite !files_emits.
Qed.

(** [C1, at a failing input] When the first resolved hook cannot be
    started, [Popen] raises, the handler ends with that exception and the
    temporary file written for the request is still there, with the
    payload in it: no [remove] was done. *)
Theorem tmpfile_left_when_hook_cannot_start
    cfg hooks event payload name branch w scr rest :
  filter (fun s => executable_file E s)
    (candidates str_of hooks event name branch) = scr :: rest ->
  popen E scr (mkstemp E (files w)) event = SpawnFails ->
  exists w',
    dispatch cfg hooks event payload name branch w = (Raise OSError, w')
    /\ files w' !! mkstemp E (files w) = Some payload
    /\ Remove (mkstemp E (files w)) ∉ drop (length (log w)) (log w').
Proof.
  intros Hkept Hpopen. rewrite (dispatch_runs _ _ _ _ _ _ _ _ _ Hkept).
  unfold mbind at 1. cbn [run_scripts]. unfold mbind at 1. cbn [modify].
  rewrite Hpopen. eexists. split; [reflexivity|]. split.
  - cbn. by rewrite lookup_insert_eq.
  - cbn. rewrite log_emits, <- !app_assoc, drop_app_length.
    rewrite !elem_of_app, !list_elem_of_singleton, list_elem_of_fmap.
    by intros [(? & ? & _)|[?|?]].
Qed.

Lemma run_scripts_completes tmpfile event scripts ran w :
  Forall (completes utf8_decode E tmpfile event) scripts ->
  exists ran',
    run_scripts utf8_decode E tmpfile event scripts ran w
    = (Ok ran', emits ((fun scr => Spawn scr tmpfile event) <$> scripts) w).
Proof.
  intros Hall. revert ran w.
  induction Hall as [|scr rest (rc & po & pe & out & err & Hp & Ho & He) _ IH];
    intros ran w.
  - by exists ran.
  - cbn [run_scripts]. unfold mbind at 1. cbn [modify].
    rewrite Hp, Ho, He. apply IH.
Qed.

(** When every resolved hook completes, whatever its return code, the
    temporary file is removed before the answer. *)
Lemma tmpfile_removed_when_hooks_complete
    cfg hooks event payload name branch w scr rest :
  filter (fun s => executable_file E s)
    (candidates str_of hooks event name branch) = scr :: rest ->
  Forall (completes utf8_decode E (mkstemp E (files w)) event) (scr :: rest) ->
  exists answer w',
    dispatch cfg hooks event payload name branch w = (Ok answer, w')
    /\ files w' !! mkstemp E (files w) = None.
Proof.
  intros Hkept Hall. rewrite (dispatch_runs _ _ _ _ _ _ _ _ _ Hkept).
  unfold mbind at 1.
  destruct (run_scripts_completes _ _ _ ∅
              (payload_saved E (candidates str_of hooks event name branch)
                 payload w) Hall) as [ran ->].
  unfold mbind at 1. unfold remove, mbind, gets, modify, raise, ret.
  rewrite files_emits. cbn [payload_saved files set_files].
  rewrite lookup_insert_eq.
  destruct (default false (return_scripts_info cfg));
    do 2 eexists; (split; [reflexivity|]); cbn; by rewrite lookup_delete_eq.
Qed.

(** ** Errors of the extraction *)

(** An exception of the branch rules that is not a [KeyError] ends the
    handler. *)
Lemma handle_event_branch_raises cfg hooks event rq payload e w :
  get_json rq = Some payload ->
  extract_branch event payload = Raise e ->
  handle_event cfg hooks event rq w = (Raise e, emit ParseBody w).
Proof.
  intros Hjson Hb. unfold handle_event. rewrite Hjson.
  unfold mbind, modify, ret, lift. by rewrite Hb.
Qed.

(** * Further properties of the handler *)

Local Abbreviation allowed := (allowed addr net ip_network net_contains).
Local Abbreviation outside_range := (outside_range ip_network net_contains).

(** ** The source check *)

Lemma allowed_cases src_ip whitelist :
  (allowed src_ip whitelist = Ok true <->
     exists pre valid_ip post n,
       whitelist = pre ++ valid_ip :: post
       /\ Forall (outside_range src_ip) pre
       /\ ip_network valid_ip = Some n /\ net_contains n src_ip = true)
  /\ (allowed src_ip whitelist = Ok false <->
       Forall (outside_range src_ip) whitelist).
Proof.
  induction whitelist as [|v rest [IHt IHf]]; simpl.
  { split; split; [done| |by constructor|done].
    intros (pre & ? & ? & ? & Heq & _). by destruct pre. }
  destruct (ip_network v) as [n|] eqn:Hv.
  - destruct (net_contains n src_ip) eqn:Hc.
    + split; split; [|done|done|].
      * intros _. by exists [], v, rest, n.
      * intros Hall. apply Forall_cons in Hall as [(m & Hm & Hout) _].
        congruence.
    + split; split.
      * intros (pre & u & post & m & -> & Hpre & Hu & Hin)%IHt.
        exists (v :: pre), u, post, m. repeat split; try done.
        constructor; [by exists n|done].
      * intros (pre & u & post & m & Heq & Hpre & Hu & Hin).
        destruct pre as [|v' pre]; simplify_eq/=; [congruence|].
        apply Forall_cons in Hpre as [_ Hpre].
        apply IHt. by exists pre, u, post, m.
      * intros Hall%IHf. constructor; [by exists n|done].
      * intros Hall. apply Forall_cons in Hall as [_ Hall]. by apply IHf.
  - split; split; [done| |done|].
    + intros (pre & u & post & m & Heq & Hpre & Hu & Hin).
      destruct pre as [|v' pre]; simplify_eq/=.
      apply Forall_cons in Hpre as [(k & Hk & _) _]. congruence.
    + intros Hall. apply Forall_cons in Hall as [(m & Hm & _) _]. congruence.
Qed.

(** [X1] The loop over the allow-list stops at the first range that holds
    the source address: it finds one exactly when the ranges before it
    parse and do not hold the address, whatever comes after it (even a
    range that does not parse); it finds none exactly when every range
    parses and none holds the address. *)
Theorem allowed_first_match src_ip whitelist :
  (allowed src_ip whitelist = Ok true <->
     exists pre valid_ip post n,
       whitelist = pre ++ valid_ip :: post
       /\ Forall (outside_range src_ip) pre
       /\ ip_network valid_ip = Some n /\ net_contains n src_ip = true)
  /\ (allowed src_ip whitelist = Ok false <->
       Forall (outside_range src_ip) whitelist).
Proof. apply allowed_cases. Qed.

(** The source check once the cache is refreshed and the allow-list is
    read. *)
Lemma check_source_after_refresh cfg rq first src_ip w w1 whitelist w2 :
  default true (github_ips_only cfg) = true ->
  access_route rq !! 0 = Some first -> ip_address first = Some src_ip ->
  refresh E w = (Ok tt, w1) ->
  whitelist_with_loopback cfg w1 = (Ok whitelist, w2) ->
  check_source cfg rq w =
    match allowed src_ip whitelist with
    | Ok true => (Ok tt, w2)
    | Ok false => (Abort 403, w2)
    | Raise e => (Raise e, w2)
    | Abort c => (Abort c, w2)
    end.
Proof.
  intros Hon Hfirst Hip Hrefresh Hwl.
  unfold check_source, index_list. rewrite Hon, Hfirst.
  unfold mbind at 1. cbn [lift]. unfold mbind at 1. rewrite Hip. cbn [lift].
  unfold mbind at 1. rewrite Hrefresh.
  unfold mbind at 1. rewrite Hwl.
  unfold mbind, lift. by destruct (allowed src_ip whitelist) as [[]| |].
Qed.

(** [X2] A POST whose source address lies in none of the ranges of the
    allow-list (all of which parse) is answered with [abort(403)], in the
    world the cache update left: before the signature is looked at and
    before anything is parsed or run. *)
Theorem source_outside_every_range_is_forbidden
    rq first src_ip w w1 whitelist w2 :
  method rq = "POST" ->
  default true (github_ips_only (config_json E)) = true ->
  access_route rq !! 0 = Some first -> ip_address first = Some src_ip ->
  refresh E w = (Ok tt, w1) ->
  whitelist_with_loopback (config_json E) w1 = (Ok whitelist, w2) ->
  Forall (outside_range src_ip) whitelist ->
  index rq w = (Abort 403, w2).
Proof.
  intros Hm Hon Hfirst Hip Hrefresh Hwl Hout.
  apply allowed_cases in Hout.
  unfold index. rewrite Hm, String.eqb_refl. cbn [negb].
  unfold mbind at 1.
  by rewrite (check_source_after_refresh _ _ _ _ _ _ _ _
                Hon Hfirst Hip Hrefresh Hwl), Hout.
Qed.

(** [X3] A source address that lies in a range of the allow-list passes
    the source check when the ranges listed before that one parse and do
    not hold it; what is listed after it is not looked at. *)
Theorem source_in_a_range_passes
    cfg rq first src_ip w w1 w2 pre valid_ip post n :
  default true (github_ips_only cfg) = true ->
  access_route rq !! 0 = Some first -> ip_address first = Some src_ip ->
  refresh E w = (Ok tt, w1) ->
  whitelist_with_loopback cfg w1 = (Ok (pre ++ valid_ip :: post), w2) ->
  Forall (outside_range src_ip) pre ->
  ip_network valid_ip = Some n -> net_contains n src_ip = true ->
  check_source cfg rq w = (Ok tt, w2).
Proof.
  intros Hon Hfirst Hip Hrefresh Hwl Hpre Hv Hin.
  rewrite (check_source_after_refresh _ _ _ _ _ _ _ _
             Hon Hfirst Hip Hrefresh Hwl).
  assert (allowed src_ip (pre ++ valid_ip :: post) = Ok true) as ->; [|done].
  apply allowed_cases. by exists pre, valid_ip, post, n.
Qed.

(** [X4] With allow_loopback set, the list used for the check is the
    cached list itself and holds 127.0.0.0/8: the range is appended to
    the cache when it is missing, nothing changes when it is there, so a
    second pass over the same cache appends nothing. *)
Theorem loopback_appended_once cfg w :
  allow_loopback cfg = Some true ->
  exists w1,
    whitelist_with_loopback cfg w = (Ok (ghm_ips w1), w1)
    /\ loopback ∈ ghm_ips w1
    /\ (loopback ∈ ghm_ips w -> w1 = w)
    /\ (loopback ∉ ghm_ips w -> ghm_ips w1 = ghm_ips w ++ [loopback])
    /\ whitelist_with_loopback cfg w1 = (Ok (ghm_ips w1), w1).
Proof.
  intros Hcfg. unfold whitelist_with_loopback, mbind, gets, modify, ret.
  rewrite Hcfg. cbn [default from_option id andb].
  destruct (decide (loopback ∈ ghm_ips w)) as [Hin|Hout].
  - exists w. rewrite (bool_decide_eq_true_2 _ Hin). cbn [negb].
    by repeat split.
  - exists (set_ips (ghm_ips w ++ [loopback]) w).
    rewrite (bool_decide_eq_false_2 _ Hout). cbn [negb].
    assert (loopback ∈ ghm_ips w ++ [loopback]) as Hnow.
    { apply elem_of_app. right. by apply list_elem_of_singleton. }
    repeat split; try done.
    cbn [ghm_ips set_ips]. by rewrite (bool_decide_eq_true_2 _ Hnow).
Qed.

(** [X5] A 200 answer that has an eTag header but no 'hooks' entry ends
    the request with an uncaught [KeyError] after the new token was
    stored: the cache keeps the old ranges under the new token, and when
    the service then answers 304 to that token, the old ranges go on
    being used. *)
Theorem refresh_without_hooks_keeps_new_token w etag :
  status_code (meta_service E (ghm_etag w)) = 200%Z ->
  headers_eTag (meta_service E (ghm_etag w)) = Some etag ->
  json_hooks (meta_service E (ghm_etag w)) = None ->
  refresh E w = (Raise (KeyError "hooks"), set_etag etag (fetched w))
  /\ ghm_ips (set_etag etag (fetched w)) = ghm_ips w
  /\ (status_code (meta_service E etag) = 304%Z ->
      (refresh E ;;; gets ghm_ips) (set_etag etag (fetched w))
      = (Ok (ghm_ips w), fetched (set_etag etag (fetched w)))).
Proof.
  intros H200 Het Hhooks. split; [|split; [done|]].
  - rewrite refresh_cases. cbv zeta. by rewrite H200, Het, Hhooks.
  - intros H304. unfold mbind. rewrite refresh_cases. cbv zeta.
    cbn [ghm_etag set_etag]. by rewrite H304.
Qed.


(** ** The signature check *)

(** [X6] With a non-empty secret, under Python 2 and when the secret is
    ASCII, the check succeeds exactly when the header is present and
    equal to "sha1=" followed by the hexadecimal HMAC-SHA1 digest of the
    raw body under the secret.  Under Python 3, where [hmac.new] refuses
    the text key, and with a secret that is not ASCII, which [str] cannot
    encode under Python 2, no header makes the check succeed. *)
Theorem signature_accepted_iff cfg rq secret :
  enforce_secret cfg = Some secret -> secret <> "" ->
  (python3 = false -> is_ascii secret = true ->
   check_signature cfg rq = Ok tt
   <-> X_Hub_Signature rq
       = Some ("sha1=" +:+ hmac_sha1_hexdigest secret (data rq)))
  /\ (python3 = true \/ is_ascii secret = false ->
      check_signature cfg rq <> Ok tt).
Proof.
  intros Hs Hne. split.
  - by apply check_signature_accepts_iff.
  - intros Hwhy. by apply (check_signature_never cfg rq secret).
Qed.

(** [X7] With a non-empty secret: a missing header gives [abort(403)]; a
    header tag=digest with one '=' gives [abort(501)] when the tag is not
    sha1, even with the right digest.  When the tag is sha1: under
    Python 2, with an ASCII secret and an ASCII digest that differs from
    the computed one, [abort(403)]; under Python 2, with a secret or a
    digest that is not ASCII, an uncaught [UnicodeEncodeError] of [str];
    under Python 3, an uncaught [TypeError] of [hmac.new], whatever the
    digest is. *)
Theorem signature_rejections cfg rq secret :
  enforce_secret cfg = Some secret -> secret <> "" ->
  (X_Hub_Signature rq = None -> check_signature cfg rq = Abort 403)
  /\ (forall tag digest,
        no_char "=" tag = true -> no_char "=" digest = true ->
        X_Hub_Signature rq = Some (tag +:+ String "=" digest) ->
        (tag <> "sha1" -> check_signature cfg rq = Abort 501)
        /\ (tag = "sha1" -> python3 = false ->
            is_ascii secret = true -> is_ascii digest = true ->
            digest <> hmac_sha1_hexdigest secret (data rq) ->
            check_signature cfg rq = Abort 403)
        /\ (tag = "sha1" -> python3 = false ->
            is_ascii secret = false \/ is_ascii digest = false ->
            check_signature cfg rq = Raise UnicodeEncodeError)
        /\ (tag = "sha1" -> python3 = true ->
            check_signature cfg rq = Raise TypeError)).
Proof.
  intros Hs Hne. split; [by apply check_signature_missing with secret|].
  intros tag digest Ht Hd Hh.
  rewrite (check_signature_rejects _ _ _ _ _ Hs Hne Ht Hd Hh).
  split; [|split; [|split]].
  - intros Htag%String.eqb_neq. by rewrite Htag.
  - intros -> Hpy Hsecret Hdigest Hdig. rewrite String.eqb_refl. cbn [negb].
    rewrite (str_text_python2 secret Hpy), Hsecret. cbn [bind].
    rewrite (hmac_new_python2 _ _ Hpy). cbn [bind].
    rewrite (str_text_python2 digest Hpy), Hdigest. cbn [bind].
    assert (String.eqb (hmac_sha1_hexdigest secret (data rq)) digest = false)
      as ->; [|done].
    apply String.eqb_neq. congruence.
  - intros -> Hpy Hwhich. rewrite String.eqb_refl. cbn [negb].
    rewrite (str_text_python2 secret Hpy).
    destruct (is_ascii secret) eqn:Hsecret; [|done]. cbn [bind].
    rewrite (hmac_new_python2 _ _ Hpy). cbn [bind].
    rewrite (str_text_python2 digest Hpy).
    destruct Hwhich as [?|Hdigest]; [done|]. by rewrite Hdigest.
  - intros -> Hpy. rewrite String.eqb_refl. cbn [negb].
    rewrite (str_text_python3 _ Hpy). cbn [bind].
    by rewrite (hmac_new_python3 _ _ Hpy).
Qed.

(** [X8] Without a secret (the key is missing or empty) the signature
    header plays no part: the handler does the same, with the same
    effects, whatever the header is, present or not, well formed or
    not. *)
Theorem no_secret_ignores_signature h rq w :
  enforce_secret (config_json E) = None
  \/ enforce_secret (config_json E) = Some "" ->
  index (with_signature h rq) w = index rq w.
Proof.
  intros Hsecret. unfold index, check_signature.
  by destruct Hsecret as [-> | ->].
Qed.

(** ** The branch rules *)

Lemma splitn_zero sep s : splitn sep 0 s = [s].
Proof.
  induction s as [|c s IH]; [done|]. cbn [splitn].
  destruct (Ascii.eqb c sep); [done|]. by rewrite IH.
Qed.

Lemma splitn_app_sep sep n a b :
  no_char sep a = true ->
  splitn sep (S n) (a +:+ String sep b) = a :: splitn sep n b.
Proof.
  induction a as [|c a IH]; simpl.
  - by rewrite Ascii.eqb_refl.
  - intros [Hc Ha]%andb_true_iff. apply negb_true_iff in Hc.
    by rewrite Hc, (IH Ha).
Qed.

Lemma splitn_length sep n s :
  length (splitn sep n s) <= S (count_char sep s).
Proof.
  revert n. induction s as [|c s IH]; intros n; simpl; [lia|].
  destruct (Ascii.eqb c sep).
  - destruct n as [|n]; simpl; [lia|]. specialize (IH n). lia.
  - specialize (IH n). destruct (splitn sep n s); simpl in *; lia.
Qed.

(** Rule 3 is reached when the payload has neither field. *)
Lemma extract_branch_third_rule event kvs :
  assoc "ref_type" kvs = None -> assoc "pull_request" kvs = None ->
  extract_branch event (JObj kvs) =
    except_KeyError
      (if String.eqb event "push" then
         ref <- getitem (JObj kvs) "ref" ;;
         match ref with
         | JStr s => part <- index_list (splitn "/" 2 s) 2 ;; Ok (JStr part)
         | _ => Raise AttributeError
         end
       else Ok JNull)
      JNull.
Proof.
  intros Hrt Hpr. unfold extract_branch. cbn [contains bind].
  rewrite bool_decide_eq_false_2 by (rewrite Hrt; by intros [? ?]).
  cbn [bind]. by rewrite bool_decide_eq_false_2 by (rewrite Hpr; by intros [? ?]).
Qed.

(** [X9] When 'ref_type' is "branch", the branch is the payload's 'ref',
    for every event type; it is absent when there is no 'ref'. *)
Theorem ref_type_branch_takes_ref event kvs :
  assoc "ref_type" kvs = Some (JStr "branch") ->
  extract_branch event (JObj kvs) = Ok (default JNull (assoc "ref" kvs)).
Proof.
  intros Hrt. unfold extract_branch. cbn [contains bind].
  rewrite bool_decide_eq_true_2 by by rewrite Hrt.
  cbn [getitem]. rewrite Hrt. cbn [bind is_str]. rewrite String.eqb_refl.
  by destruct (assoc "ref" kvs) as [[]|].
Qed.

(** [X10] Without 'ref_type', a payload with a 'pull_request' mapping
    that has a 'base' mapping gives the 'ref' of the base (absent when
    the base has none), for every event type, whatever the head and the
    payload's own 'ref' are. *)
Theorem pull_request_takes_base_ref event kvs pull_request base :
  assoc "ref_type" kvs = None ->
  assoc "pull_request" kvs = Some (JObj pull_request) ->
  assoc "base" pull_request = Some (JObj base) ->
  extract_branch event (JObj kvs) = Ok (default JNull (assoc "ref" base)).
Proof.
  intros Hrt Hpr Hbase. unfold extract_branch. cbn [contains bind].
  rewrite bool_decide_eq_false_2 by (rewrite Hrt; by intros [? ?]).
  cbn [bind]. rewrite bool_decide_eq_true_2 by by rewrite Hpr.
  cbn [getitem]. rewrite Hpr. cbn [bind getitem]. rewrite Hbase.
  cbn [bind getitem]. by destruct (assoc "ref" base) as [[]|].
Qed.

(** [X11] For a push whose 'ref' has at least two slashes, the branch is
    all that follows the second slash, further slashes included. *)
Theorem push_branch_follows_second_slash kvs a b rest :
  assoc "ref_type" kvs = None -> assoc "pull_request" kvs = None ->
  no_char "/" a = true -> no_char "/" b = true ->
  assoc "ref" kvs = Some (JStr (a +:+ String "/" (b +:+ String "/" rest))) ->
  extract_branch "push" (JObj kvs) = Ok (JStr rest).
Proof.
  intros Hrt Hpr Ha Hb Href.
  rewrite (extract_branch_third_rule _ _ Hrt Hpr).
  rewrite String.eqb_refl. cbn [getitem]. rewrite Href. cbn [bind].
  by rewrite (splitn_app_sep _ _ _ _ Ha), (splitn_app_sep _ _ _ _ Hb),
    splitn_zero.
Qed.

(** [X12] For a push whose 'ref' is a string with fewer than two
    slashes, picking the third piece raises [IndexError], which the
    [except KeyError] does not catch: the request ends with it, right
    after the body was parsed. *)
Theorem push_short_ref_raises_IndexError kvs ref :
  assoc "ref_type" kvs = None -> assoc "pull_request" kvs = None ->
  assoc "ref" kvs = Some (JStr ref) ->
  count_char "/" ref < 2 ->
  extract_branch "push" (JObj kvs) = Raise IndexError
  /\ forall cfg hooks rq w,
       get_json rq = Some (JObj kvs) ->
       handle_event cfg hooks "push" rq w = (Raise IndexError, emit ParseBody w).
Proof.
  intros Hrt Hpr Href Hfew.
  assert (extract_branch "push" (JObj kvs) = Raise IndexError) as Hraise.
  { rewrite (extract_branch_third_rule _ _ Hrt Hpr).
    rewrite String.eqb_refl. cbn [getitem]. rewrite Href. cbn [bind].
    unfold index_list. rewrite lookup_ge_None_2; [done|].
    pose proof (splitn_length "/" 2 ref). lia. }
  split; [done|]. intros cfg hooks rq w Hjson.
  by apply handle_event_branch_raises with (payload := JObj kvs).
Qed.

(** [X13] Whatever the event type and the payload, the branch rules end
    with a branch (possibly absent) or with one of [TypeError],
    [AttributeError] and [IndexError]: never with a [KeyError], never
    with an abort. *)
Theorem extract_branch_outcomes event payload :
  (exists branch, extract_branch event payload = Ok branch)
  \/ extract_branch event payload = Raise TypeError
  \/ extract_branch event payload = Raise AttributeError
  \/ extract_branch event payload = Raise IndexError.
Proof.
  unfold extract_branch, except_KeyError, bind, contains, getitem, index_list.
  repeat case_match; simplify_eq; eauto.
Qed.

(** ** Running the hooks *)

Local Abbreviation completes := (completes utf8_decode E).
Local Abbreviation hook_fails := (hook_fails utf8_decode E).

(** The loop either goes through all the scripts, or stops at the first
    one that fails. *)
Lemma run_scripts_outcome tmpfile event scripts ran w :
  (Forall (completes tmpfile event) scripts
   /\ exists ran',
        run_scripts utf8_decode E tmpfile event scripts ran w
        = (Ok ran', emits (spawns tmpfile event scripts) w)
        /\ dom ran' =@{gset string} dom ran ∪ list_to_set (basename <$> scripts))
  \/ (exists pre scr post e,
        scripts = pre ++ scr :: post
        /\ Forall (completes tmpfile event) pre
        /\ hook_fails tmpfile event scr
        /\ (e = OSError \/ e = UnicodeDecodeError)
        /\ run_scripts utf8_decode E tmpfile event scripts ran w
           = (Raise e, emits (spawns tmpfile event (pre ++ [scr])) w)).
Proof.
  revert ran w. induction scripts as [|scr rest IH]; intros ran w.
  { left. split; [constructor|]. exists ran. split; [done|].
    cbn. by rewrite (right_id_L ∅ (∪)). }
  cbn [run_scripts]. unfold mbind at 1. cbn [modify].
  destruct (popen E scr tmpfile event) as [|rc po pe] eqn:Hp.
  { right. exists [], scr, rest, OSError.
    split; [done|]. split; [constructor|]. split; [by left|].
    split; [by left|done]. }
  destruct (utf8_decode po) as [out|] eqn:Ho;
    [destruct (utf8_decode pe) as [err|] eqn:He|].
  - destruct (IH (<[basename scr :=
                     {| res_returncode := rc; res_stdout := out;
                        res_stderr := err |}]> ran)
                (emit (Spawn scr tmpfile event) w))
      as [[Hall (ran' & Hrun & Hdom)]
         |(pre & s & post & e & -> & Hpre & Hf & He' & Hrun)].
    + left. split.
      * constructor; [|done]. by exists rc, po, pe, out, err.
      * exists ran'. split; [done|].
        rewrite Hdom, dom_insert_L, fmap_cons, list_to_set_cons.
        by rewrite (comm_L (∪) {[basename scr]} (dom ran)), <- (assoc_L (∪)).
    + right. exists (scr :: pre), s, post, e.
      split; [done|]. split; [|done].
      constructor; [|done]. by exists rc, po, pe, out, err.
  - right. exists [], scr, rest, UnicodeDecodeError.
    split; [done|]. split; [constructor|]. split.
    { right. exists rc, po, pe. split; [done|by right]. }
    split; [by right|done].
  - right. exists [], scr, rest, UnicodeDecodeError.
    split; [done|]. split; [constructor|]. split.
    { right. exists rc, po, pe. split; [done|by left]. }
    split; [by right|]. by destruct (utf8_decode pe).
Qed.

Lemma log_payload_saved scripts payload w :
  log (payload_saved E scripts payload w)
  = log w ++ (Probe <$> scripts) ++ [MkTemp (mkstemp E (files w))].
Proof.
  unfold payload_saved. cbn. by rewrite log_emits, <- app_assoc.
Qed.

Lemma files_payload_saved scripts payload w :
  files (payload_saved E scripts payload w)
  = <[mkstemp E (files w) := payload]> (files w).
Proof. done. Qed.

(** What [dispatch] does, in its three ways to end. *)
Lemma dispatch_outcome cfg hooks event payload name branch w :
  let scripts := candidates str_of hooks event name branch in
  let kept := filter (fun s => executable_file E s) scripts in
  let tmpfile := mkstemp E (files w) in
  (kept = []
   /\ dispatch cfg hooks event payload name branch w
      = (Ok (Document (JObj [("status", JStr "nop")])),
         emits (Probe <$> scripts) w))
  \/ (kept <> []
      /\ Forall (completes tmpfile event) kept
      /\ exists ran,
           dom ran =@{gset string} list_to_set (basename <$> kept)
           /\ dispatch cfg hooks event payload name branch w
              = (Ok (if default false (return_scripts_info cfg)
                     then ScriptsInfo ran
                     else Document (JObj [("status", JStr "done")])),
                 hooks_finished E scripts kept event payload w))
  \/ (exists pre scr post e,
        kept = pre ++ scr :: post
        /\ Forall (completes tmpfile event) pre
        /\ hook_fails tmpfile event scr
        /\ (e = OSError \/ e = UnicodeDecodeError)
        /\ dispatch cfg hooks event payload name branch w
           = (Raise e,
              emits (spawns tmpfile event (pre ++ [scr]))
                (payload_saved E scripts payload w))).
Proof.
  cbv zeta.
  destruct (filter (fun s => executable_file E s)
              (candidates str_of hooks event name branch))
    as [|scr rest] eqn:Hkept.
  { left. split; [done|]. unfold dispatch. unfold mbind at 1.
    by rewrite check_permissions_spec, Hkept. }
  right. rewrite (dispatch_runs _ _ _ _ _ _ _ _ _ Hkept).
  unfold mbind at 1.
  match goal with
  | |- context [run_scripts _ _ ?tmp ?ev ?l ?r ?w0] =>
      destruct (run_scripts_outcome tmp ev l r w0)
        as [[Hall (ran & Hrun & Hdom)]
           |(pre & s & post & e & Heq & Hpre & Hf & He & Hrun)]
  end.
  - left. split; [done|]. split; [done|]. exists ran. split.
    { by rewrite Hdom, dom_empty_L, (left_id_L ∅ (∪)). }
    rewrite Hrun. unfold mbind at 1.
    unfold remove, mbind, gets, modify, raise, ret.
    rewrite files_emits, files_payload_saved, lookup_insert_eq.
    unfold hooks_finished.
    by destruct (default false (return_scripts_info cfg)).
  - right. exists pre, s, post, e. unfold mbind at 1. by rewrite Hrun.
Qed.




Lemma log_hooks_finished scripts kept event payload w :
  log (hooks_finished E scripts kept event payload w)
  = log w ++ (Probe <$> scripts) ++ [MkTemp (mkstemp E (files w))]
      ++ spawns (mkstemp E (files w)) event kept
      ++ [Remove (mkstemp E (files w))].
Proof.
  unfold hooks_finished. cbn [log set_files emit].
  by rewrite log_emits, log_payload_saved, <- !app_assoc.
Qed.





(** [X18] Whatever happens, the only processes a request starts are
    candidates that were found to be executable files, each started with
    the temporary file of the request and the event type. *)
Theorem only_resolved_hooks_are_started
    cfg hooks event payload name branch w r w' :
  dispatch cfg hooks event payload name branch w = (r, w') ->
  exists l,
    log w' = log w ++ l
    /\ forall scr tmpfile ev,
         Spawn scr tmpfile ev ∈ l ->
         executable_file E scr = true
         /\ scr ∈ candidates str_of hooks event name branch
         /\ tmpfile = mkstemp E (files w) /\ ev = event.
Proof.
  intros Hd.
  assert (forall started scr tmpfile ev,
            started `prefix_of`
              filter (fun s => executable_file E s)
                (candidates str_of hooks event name branch) ->
            Spawn scr tmpfile ev
              ∈ (Probe <$> candidates str_of hooks event name branch)
                ++ [MkTemp (mkstemp E (files w))]
                ++ spawns (mkstemp E (files w)) event started
                ++ [Remove (mkstemp E (files w))] ->
            executable_file E scr = true
            /\ scr ∈ candidates str_of hooks event name branch
            /\ tmpfile = mkstemp E (files w) /\ ev = event) as Hspawn.
  { intros started scr tmpfile ev [k Hk] Hin.
    rewrite !elem_of_app, !list_elem_of_singleton in Hin.
    destruct Hin as [Hin|[Hin|[Hin|Hin]]]; try done.
    { apply list_elem_of_fmap in Hin as (? & ? & _). done. }
    apply list_elem_of_fmap in Hin as (s & [= -> -> ->] & Hs).
    assert (s ∈ filter (fun s => executable_file E s)
                  (candidates str_of hooks event name branch)) as Hkept.
    { rewrite Hk. apply elem_of_app. by left. }
    apply list_elem_of_filter in Hkept as [Hx Hc].
    by apply Is_true_true in Hx. }
  destruct (dispatch_outcome cfg hooks event payload name branch w)
    as [[_ Hn]|[(_ & _ & ran & _ & Hok)|(pre & s & post & e & Heq & _ & _ & _ & Hfail)]].
  - rewrite Hn in Hd. injection Hd as _ <-.
    exists (Probe <$> candidates str_of hooks event name branch).
    split; [apply log_emits|].
    intros scr tmpfile ev (? & ? & _)%list_elem_of_fmap. done.
  - rewrite Hok in Hd. injection Hd as _ <-. eexists.
    split; [apply log_hooks_finished|].
    intros scr tmpfile ev Hin. by apply (Hspawn _ _ _ _ (reflexivity _)).
  - rewrite Hfail in Hd. injection Hd as _ <-. eexists. split.
    { by rewrite log_emits, log_payload_saved, <- !app_assoc. }
    intros scr tmpfile ev Hin.
    apply (Hspawn (pre ++ [s])).
    + exists post. by rewrite Heq, <- app_assoc.
    + rewrite !elem_of_app in Hin. rewrite !elem_of_app.
      destruct Hin as [?|[?|?]]; auto.
Qed.

(** [X19] Whatever happens, a request changes no file but its own
    temporary file. *)
Theorem other_files_untouched
    cfg hooks event payload name branch w r w' p :
  dispatch cfg hooks event payload name branch w = (r, w') ->
  p <> mkstemp E (files w) ->
  files w' !! p = files w !! p.
Proof.
  intros Hd Hp.
  destruct (dispatch_outcome cfg hooks event payload name branch w)
    as [[_ Hn]|[(_ & _ & ran & _ & Hok)|(pre & s & post & e & _ & _ & _ & _ & Hfail)]].
  - rewrite Hn in Hd. injection Hd as _ <-. by rewrite files_emits.
  - rewrite Hok in Hd. injection Hd as _ <-.
    unfold hooks_finished. cbn [files set_files].
    by rewrite lookup_delete_ne, lookup_insert_ne.
  - rewrite Hfail in Hd. injection Hd as _ <-.
    rewrite files_emits, files_payload_saved. by rewrite lookup_insert_ne.
Qed.

(** ** The handler as a whole *)

(** [X20] A push whose 'deleted' field is true (in Python's sense) is
    answered with the status skipped once branch and name were
    extracted: the world is the one the checks left plus the parsing of
    the body, so no hook is probed or started and no file is written. *)
Theorem deleted_push_is_skipped rq kvs deleted branch name w w1 :
  method rq = "POST" ->
  check_source (config_json E) rq w = (Ok tt, w1) ->
  check_signature (config_json E) rq = Ok tt ->
  X_GitHub_Event rq = Some "push" ->
  get_json rq = Some (JObj kvs) ->
  assoc "deleted" kvs = Some deleted -> truthy deleted = true ->
  extract_branch "push" (JObj kvs) = Ok branch ->
  extract_name (JObj kvs) = Ok name ->
  index rq w
  = (Ok (Document (JObj [("status", JStr "skipped")])), emit ParseBody w1).
Proof.
  intros Hm Hsrc Hsig Hev Hjson Hdel Htrue Hb Hn.
  rewrite (index_after_checks _ _ _ Hm Hsrc Hsig), Hev.
  change (default "ping" (Some "push")) with "push".
  cbv zeta. change (String.eqb "push" "ping") with false. cbv iota.
  unfold handle_event. rewrite Hjson.
  unfold mbind, modify, ret, lift. rewrite Hb, Hn.
  unfold push_delete. change (String.eqb "push" "push") with true.
  cbn [getitem]. rewrite Hdel. cbn [bind]. by rewrite Htrue.
Qed.

(** [X21] A request that is not a POST, or that the source check or the
    signature check does not let through, gets no answer document: the
    handler ends with the abort or the exception of that check, no file
    is touched, and the log holds at most the allow-list fetch (no
    parsing, no probe, no process). *)
Theorem rejected_request_reaches_nothing rq w :
  method rq <> "POST"
  \/ (check_source (config_json E) rq w).1 <> Ok tt
  \/ check_signature (config_json E) rq <> Ok tt ->
  exists r w',
    index rq w = (r, w')
    /\ (forall answer, r <> Ok answer)
    /\ files w' = files w
    /\ (log w' = log w \/ log w' = log w ++ [Fetch (ghm_etag w)]).
Proof.
  intros Hrej. unfold index.
  destruct (String.eqb_spec (method rq) "POST") as [Hm|Hm]; cbn [negb].
  2: { exists (Abort 501), w. repeat split; [done|by left]. }
  unfold mbind at 1.
  destruct (check_source (config_json E) rq w) as [r0 w1] eqn:Hsrc.
  pose proof (check_source_effects _ _ _ _ _ Hsrc) as [Hfiles Hlog].
  destruct r0 as [[]|e|c].
  - unfold mbind at 1, lift.
    destruct (check_signature (config_json E) rq) as [[]|e|c] eqn:Hsig.
    + destruct Hrej as [?|[?|?]]; done.
    + by exists (Raise e), w1.
    + by exists (Abort c), w1.
  - by exists (Raise e), w1.
  - by exists (Abort c), w1.
Qed.

Lemma ghm_emits l w :
  ghm_ips (emits l w) = ghm_ips w /\ ghm_etag (emits l w) = ghm_etag w.
Proof.
  revert w. induction l as [|a l IH]; intros w; [done|].
  rewrite emits_cons. by destruct (IH (emit a w)).
Qed.

(** After the checks the cache is left alone and the service is not
    asked again. *)
Lemma dispatch_keeps_cache cfg hooks event payload name branch w r w' :
  dispatch cfg hooks event payload name branch w = (r, w') ->
  ghm_ips w' = ghm_ips w /\ ghm_etag w' = ghm_etag w
  /\ exists l, log w' = log w ++ l /\ forall t, Fetch t ∉ l.
Proof.
  intros Hd.
  assert (forall t started,
            Fetch t
              ∉ (Probe <$> candidates str_of hooks event name branch)
                ++ [MkTemp (mkstemp E (files w))]
                ++ spawns (mkstemp E (files w)) event started
                ++ [Remove (mkstemp E (files w))]) as Hnofetch.
  { intros t started. unfold spawns.
    rewrite !elem_of_app, !list_elem_of_singleton, !list_elem_of_fmap.
    intros [(? & ? & _)|[?|[(? & ? & _)|?]]]; done. }
  destruct (dispatch_outcome cfg hooks event payload name branch w)
    as [[_ Hn]|[(_ & _ & ran & _ & Hok)|(pre & s & post & e & _ & _ & _ & _ & Hfail)]].
  - rewrite Hn in Hd. injection Hd as _ <-.
    destruct (ghm_emits (Probe <$> candidates str_of hooks event name branch) w)
      as [-> ->].
    repeat split. eexists. split; [apply log_emits|].
    intros t (? & ? & _)%list_elem_of_fmap. done.
  - rewrite Hok in Hd. injection Hd as _ <-.
    unfold hooks_finished, payload_saved.
    cbn [ghm_ips ghm_etag set_files emit].
    destruct (ghm_emits
                (spawns (mkstemp E (files w)) event
                   (filter (fun s => executable_file E s)
                      (candidates str_of hooks event name branch)))
                (set_files (<[mkstemp E (files w) := payload]> (files w))
                   (emit (MkTemp (mkstemp E (files w)))
                      (emits (Probe <$> candidates str_of hooks event name branch) w))))
      as [-> ->].
    cbn [ghm_ips ghm_etag set_files emit].
    destruct (ghm_emits (Probe <$> candidates str_of hooks event name branch) w)
      as [-> ->].
    repeat split. eexists. split; [apply log_hooks_finished|]. intros t. apply Hnofetch.
  - rewrite Hfail in Hd. injection Hd as _ <-.
    destruct (ghm_emits (spawns (mkstemp E (files w)) event (pre ++ [s]))
                (payload_saved E (candidates str_of hooks event name branch)
                   payload w)) as [-> ->].
    unfold payload_saved at 1 2. cbn [ghm_ips ghm_etag set_files emit].
    destruct (ghm_emits (Probe <$> candidates str_of hooks event name branch) w)
      as [-> ->].
    repeat split. eexists. split.
    { by rewrite log_emits, log_payload_saved, <- !app_assoc. }
    intros t Hin. apply (Hnofetch t (pre ++ [s])).
    rewrite !elem_of_app in Hin. rewrite !elem_of_app.
    destruct Hin as [?|[?|?]]; auto.
Qed.

Lemma handle_event_keeps_cache cfg hooks event rq w r w' :
  handle_event cfg hooks event rq w = (r, w') ->
  ghm_ips w' = ghm_ips w /\ ghm_etag w' = ghm_etag w
  /\ exists l, log w' = log w ++ l /\ forall t, Fetch t ∉ l.
Proof.
  assert (forall r0, (r0, emit ParseBody w) = (r, w') ->
            ghm_ips w' = ghm_ips w /\ ghm_etag w' = ghm_etag w
            /\ exists l, log w' = log w ++ l /\ forall t, Fetch t ∉ l) as Hstop.
  { intros r0 [= _ <-]. repeat split. exists [ParseBody]. split; [done|].
    intros t Hin%list_elem_of_singleton. done. }
  unfold handle_event. unfold mbind at 1. cbn [modify].
  unfold mbind at 1.
  destruct (get_json rq) as [payload|]; [|by apply Hstop].
  cbn [ret]. unfold mbind at 1. cbn [lift].
  destruct (extract_branch event payload) as [branch| |]; [|by apply Hstop..].
  unfold mbind at 1. cbn [lift].
  destruct (extract_name payload) as [name| |]; [|by apply Hstop..].
  unfold mbind at 1. cbn [lift].
  destruct (push_delete event payload) as [[]| |]; [by apply Hstop| |by apply Hstop..].
  intros (Hips & Hetag & l & Hlog & Hl)%dispatch_keeps_cache.
  split; [done|]. split; [done|]. exists (ParseBody :: l). split.
  { rewrite Hlog. cbn. by rewrite <- app_assoc. }
  intros t [?|?]%elem_of_cons; [done|]. by apply (Hl t).
Qed.

(** [X22] With github_ips_only set to false, no request asks the
    upstream service and no request changes the cached ranges or token,
    however the request ends. *)
Theorem no_fetch_without_github_ips_only rq w r w' :
  github_ips_only (config_json E) = Some false ->
  index rq w = (r, w') ->
  ghm_ips w' = ghm_ips w /\ ghm_etag w' = ghm_etag w
  /\ exists l, log w' = log w ++ l /\ forall t, Fetch t ∉ l.
Proof.
  intros Hoff. unfold index, check_source. rewrite Hoff. cbn [default from_option id].
  assert (forall r0, (r0, w) = (r, w') ->
            ghm_ips w' = ghm_ips w /\ ghm_etag w' = ghm_etag w
            /\ exists l, log w' = log w ++ l /\ forall t, Fetch t ∉ l) as Hstop.
  { intros r0 [= _ <-]. repeat split. exists []. split; [by rewrite app_nil_r|].
    intros t Hin. by apply elem_of_nil in Hin. }
  destruct (negb (String.eqb (method rq) "POST")); [by apply Hstop|].
  unfold mbind at 1. cbn [ret]. unfold mbind at 1, lift.
  destruct (check_signature (config_json E) rq) as [[]| |]; [|by apply Hstop..].
  cbv zeta.
  destruct (String.eqb (default "ping" (X_GitHub_Event rq)) "ping");
    [by apply Hstop|].
  apply handle_event_keeps_cache.
Qed.

(** [X23] Once the source check has passed, the rest of the request
    leaves the cache as the check left it and asks the upstream service
    no more: a request makes at most one fetch. *)
Theorem cache_changes_only_in_source_check rq w w1 r w' :
  method rq = "POST" ->
  check_source (config_json E) rq w = (Ok tt, w1) ->
  index rq w = (r, w') ->
  ghm_ips w' = ghm_ips w1 /\ ghm_etag w' = ghm_etag w1
  /\ exists l, log w' = log w1 ++ l /\ forall t, Fetch t ∉ l.
Proof.
  intros Hm Hsrc. rewrite (index_after_source _ _ _ Hm Hsrc).
  assert (forall r0, (r0, w1) = (r, w') ->
            ghm_ips w' = ghm_ips w1 /\ ghm_etag w' = ghm_etag w1
            /\ exists l, log w' = log w1 ++ l /\ forall t, Fetch t ∉ l) as Hstop.
  { intros r0 [= _ <-]. repeat split. exists []. split; [by rewrite app_nil_r|].
    intros t Hin. by apply elem_of_nil in Hin. }
  unfold mbind at 1, lift.
  destruct (check_signature (config_json E) rq) as [[]| |]; [|by apply Hstop..].
  cbv zeta.
  destruct (String.eqb (default "ping" (X_GitHub_Event rq)) "ping");
    [by apply Hstop|].
  apply handle_event_keeps_cache.
Qed.

(** [X24] After the checks, for an event that is not a ping, a body that
    cannot be parsed gives [abort(400)], and a body that parses to
    [None] (no JSON content), a number or a boolean ends the request with
    an uncaught [TypeError] at the first membership test. *)
Theorem body_without_document rq event w w1 :
  method rq = "POST" ->
  check_source (config_json E) rq w = (Ok tt, w1) ->
  check_signature (config_json E) rq = Ok tt ->
  X_GitHub_Event rq = Some event -> event <> "ping" ->
  (get_json rq = None -> index rq w = (Abort 400, emit ParseBody w1))
  /\ (forall payload,
        get_json rq = Some payload -> scalar payload = true ->
        index rq w = (Raise TypeError, emit ParseBody w1)).
Proof.
  intros Hm Hsrc Hsig Hev Hping%String.eqb_neq.
  rewrite (index_after_checks _ _ _ Hm Hsrc Hsig), Hev.
  change (default "ping" (Some event)) with event.
  cbv zeta. rewrite Hping. unfold handle_event. split.
  - intros Hjson. by rewrite Hjson.
  - intros payload Hjson Hscalar. rewrite Hjson.
    unfold mbind, modify, ret, lift.
    assert (extract_branch event payload = Raise TypeError) as ->; [|done].
    by destruct payload.
Qed.

(** ** Where the hooks are looked for *)



Lemma no_char_append c a b :
  no_char c (a +:+ b) = no_char c a && no_char c b.
Proof.
  induction a as [|x a IH]; simpl; [done|]. by rewrite IH, andb_assoc.
Qed.

(** [X26] When the event type and the name and branch that are used
    hold no slash, every candidate is the hooks directory followed by a name
    without slash, and [basename] gives back these names in order: the
    keys of [ran] are then the hook names of the four rules. *)
Theorem candidates_stay_in_hooks_dir hooks event name branch :
  no_char "/" event = true ->
  (truthy name = true -> no_char "/" (fmt str_of name) = true) ->
  (truthy branch = true -> no_char "/" (fmt str_of branch) = true) ->
  basename <$> candidates str_of hooks event name branch
  = hook_names str_of event name branch
  /\ Forall (fun c => exists n, c = dir_prefix hooks +:+ n
                                /\ no_char "/" n = true)
       (candidates str_of hooks event name branch).
Proof.
  intros He Hn Hb.
  assert (Forall (fun n => no_char "/" n = true)
            (hook_names str_of event name branch)) as Hnames.
  { unfold hook_names.
    destruct (truthy branch) eqn:Htb, (truthy name) eqn:Htn; cbn [andb];
      repeat constructor; try done;
      rewrite ?no_char_append, ?He, ?Hn, ?Hb; done. }
  rewrite candidates_hook_names. split.
  - rewrite <- list_fmap_compose.
    rewrite <- (list_fmap_id (hook_names str_of event name branch)) at 2.
    apply Forall_fmap_ext_1. eapply Forall_impl; [exact Hnames|].
    intros n Hslash. by apply basename_join.
  - apply Forall_fmap. eapply Forall_impl; [exact Hnames|].
    intros n Hslash. exists n. split; [|done].
    apply join_relative. by apply no_char_starts_with_slash.
Qed.

End Properties.

(** [C2, at failing inputs] The extraction lets errors through: a push
    'ref' with fewer than three segments raises [IndexError], a
    'pull_request' that is not a mapping raises [TypeError], a
    'repository' without 'name' raises [KeyError] outside the handled
    block; the request with the first payload ends with the uncaught
    [IndexError]. *)
Theorem extraction_lets_errors_through :
  extract_branch "push" (JObj [("ref", JStr "main")]) = Raise IndexError
  /\ extract_branch "pull_request" (JObj [("pull_request", JStr "opened")])
     = Raise TypeError
  /\ extract_name (JObj [("repository", JObj [("id", JInt 7)])])
     = Raise (KeyError "name")
  /\ (Sample.serve
        (Sample.post (Some "push") Sample.signed (JObj [("ref", JStr "main")]))
        Sample.w0).1 = Raise IndexError.
Proof. repeat split; vm_compute; reflexivity. Qed.

(** * The properties on the concrete installation *)

Example sample_push_leaves_tmpfile :
  let out :=
    Sample.serve
      (Sample.post (Some "push") Sample.signed
         (JObj [("ref", JStr "refs/heads/main"); ("deleted", JBool false);
                ("repository", JObj [("name", JStr "repo")])]))
      Sample.w0 in
  out.1 = Raise OSError
  /\ is_Some (files out.2 !! "/tmp/tmpq3x9wl")
  /\ log out.2
     = [Fetch ""; ParseBody; Probe "/srv/hooks/push-repo-main";
        Probe "/srv/hooks/push-repo"; Probe "/srv/hooks/push";
        Probe "/srv/hooks/all"; MkTemp "/tmp/tmpq3x9wl";
        Spawn "/srv/hooks/push" "/tmp/tmpq3x9wl" "push"].
Proof. vm_compute. repeat split. by eexists. Qed.

Lemma tmpfile_left_witness :
  exists w',
    Sample.run_hooks Sample.cfg "/srv/hooks" "push" Sample.push_main
      (JStr "repo") (JStr "main") Sample.fetched = (Raise OSError, w')
    /\ files w' !! "/tmp/tmpq3x9wl" = Some Sample.push_main
    /\ Remove "/tmp/tmpq3x9wl" ∉ drop 1 (log w').
Proof.
  apply (tmpfile_left_when_hook_cannot_start Sample.str_of Sample.utf8_decode
           Sample.E Sample.cfg "/srv/hooks" "push" Sample.push_main
           (JStr "repo") (JStr "main") Sample.fetched
           "/srv/hooks/push" ["/srv/hooks/all"]).
  - vm_compute. reflexivity.
  - vm_compute. reflexivity.
Defined.

Lemma ref_type_not_branch_witness :
  extract_branch "push" Sample.tag_created = Ok JNull.
Proof.
  apply (ref_type_not_branch_gives_no_branch "push" _ (JStr "tag")).
  - reflexivity.
  - reflexivity.
Defined.

(** For a push whose payload says 'ref_type': "tag", the third segment of
    'ref' is v1.0, and the branch is absent. *)
Lemma push_with_ref_type_tag_has_no_branch :
  getitem Sample.tag_created "ref_type" = Ok (JStr "tag")
  /\ index_list (splitn "/" 2 "refs/tags/v1.0") 2 = Ok "v1.0"
  /\ extract_branch "push" Sample.tag_created = Ok JNull
  /\ extract_branch "push" Sample.tag_created <> Ok (JStr "v1.0").
Proof. repeat split; try (vm_compute; reflexivity). by vm_compute. Qed.

Lemma candidates_NoDup_iff_witness :
  NoDup (candidates Sample.str_of "/srv/hooks" "push" (JStr "repo") (JStr "main"))
  <-> "push" <> "all".
Proof.
  apply (candidates_NoDup_iff Sample.str_of "/srv/hooks" "push").
  reflexivity.
Defined.

(** With the event type "all", rules 3 and 4 list the same path: it is
    probed, kept and started twice. *)
Lemma event_all_runs_hook_twice :
  candidates Sample.str_of "/srv/hooks" "all" (JStr "repo") JNull
  = ["/srv/hooks/all-repo"; "/srv/hooks/all"; "/srv/hooks/all"]
  /\ ~ NoDup (candidates Sample.str_of "/srv/hooks" "all" (JStr "repo") JNull)
  /\ log (Sample.serve (Sample.post (Some "all") Sample.signed Sample.of_repo)
            Sample.w0).2
     = [Fetch ""; ParseBody; Probe "/srv/hooks/all-repo";
        Probe "/srv/hooks/all"; Probe "/srv/hooks/all";
        MkTemp "/tmp/tmpq3x9wl";
        Spawn "/srv/hooks/all" "/tmp/tmpq3x9wl" "all";
        Spawn "/srv/hooks/all" "/tmp/tmpq3x9wl" "all";
        Remove "/tmp/tmpq3x9wl"].
Proof.
  split; [reflexivity|]. split; [|vm_compute; reflexivity].
  change (candidates Sample.str_of "/srv/hooks" "all" (JStr "repo") JNull)
    with ["/srv/hooks/all-repo"; "/srv/hooks/all"; "/srv/hooks/all"].
  intros Hnd. apply NoDup_cons in Hnd as [_ Hnd].
  apply NoDup_cons in Hnd as [Hnd _]. apply Hnd. by left.
Qed.

Lemma signature_without_one_equals_witness :
  check_signature Sample.E Sample.cfg
    (Sample.post (Some "push") (Some "sha1") Sample.push_main)
  = Raise ValueError
  /\ Sample.serve (Sample.post (Some "push") (Some "sha1") Sample.push_main)
       Sample.w0
     = (Raise ValueError, Sample.fetched).
Proof.
  destruct (signature_without_one_equals_raises Sample.str_of
              Sample.utf8_decode Z (Z * Z)%type Sample.ip_address
              Sample.ip_network Sample.net_contains Sample.E
              (Sample.post (Some "push") (Some "sha1") Sample.push_main)
              "s3cret" "sha1") as [Hcheck Hindex].
  - reflexivity.
  - discriminate.
  - reflexivity.
  - vm_compute. discriminate.
  - split; [exact Hcheck|]. apply Hindex; [reflexivity|].
    vm_compute. reflexivity.
Defined.

Lemma signature_digest_with_equals_witness :
  check_signature Sample.E Sample.cfg
    (Sample.post (Some "push") (Some "sha1=ab=cd") Sample.push_main)
  = Raise ValueError
  /\ check_signature Sample.E Sample.cfg
       (Sample.post (Some "push") (Some "sha1=ab=cd") Sample.push_main)
     <> Abort 403.
Proof.
  apply (signature_digest_with_equals_raises Sample.E Sample.cfg
           (Sample.post (Some "push") (Some "sha1=ab=cd") Sample.push_main)
           "s3cret").
  - reflexivity.
  - discriminate.
  - reflexivity.
Defined.

Lemma ping_answers_pong_witness :
  Sample.serve (Sample.post None Sample.signed Sample.push_main) Sample.w0
  = (Ok (Document (JObj [("msg", JStr "pong")])), Sample.fetched)
  /\ files Sample.fetched = files Sample.w0
  /\ (log Sample.fetched = log Sample.w0
      \/ log Sample.fetched = log Sample.w0 ++ [Fetch (ghm_etag Sample.w0)]).
Proof.
  apply (ping_answers_pong Sample.str_of Sample.utf8_decode
           Z (Z * Z)%type Sample.ip_address Sample.ip_network
           Sample.net_contains Sample.E
           (Sample.post None Sample.signed Sample.push_main)
           Sample.w0 Sample.fetched).
  - reflexivity.
  - vm_compute. reflexivity.
  - vm_compute. reflexivity.
  - left. reflexivity.
Defined.

Lemma push_without_deleted_witness :
  push_delete "push" Sample.push_main = Raise (KeyError "deleted")
  /\ exists e,
       Sample.serve (Sample.post (Some "push") Sample.signed Sample.push_main)
         Sample.w0
       = (Raise e, emit ParseBody Sample.fetched)
       /\ (forall branch name,
             extract_branch "push" Sample.push_main = Ok branch ->
             extract_name Sample.push_main = Ok name ->
             e = KeyError "deleted")
       /\ (forall e',
             extract_branch "push" Sample.push_main = Raise e' -> e = e')
       /\ (forall branch e',
             extract_branch "push" Sample.push_main = Ok branch ->
             extract_name Sample.push_main = Raise e' -> e = e').
Proof.
  apply (push_without_deleted_raises Sample.str_of
           Sample.utf8_decode Z (Z * Z)%type Sample.ip_address
           Sample.ip_network Sample.net_contains Sample.E
           (Sample.post (Some "push") Sample.signed Sample.push_main)
           _ Sample.w0 Sample.fetched).
  - reflexivity.
  - vm_compute. reflexivity.
  - vm_compute. reflexivity.
  - reflexivity.
  - reflexivity.
  - reflexivity.
Defined.

(** A signed push with the payload ref: main has no 'deleted' key and
    ends with the [IndexError] of line 176, right after the body was
    parsed: no [KeyError] is raised, line 195 is not reached. *)
Lemma push_without_deleted_ends_with_IndexError :
  assoc "deleted" Cases.push_short = None
  /\ Sample.serve
       (Sample.post (Some "push") Sample.signed (JObj Cases.push_short))
       Sample.w0
     = (Raise IndexError, emit ParseBody Sample.fetched)
  /\ forall key,
       (Sample.serve
          (Sample.post (Some "push") Sample.signed (JObj Cases.push_short))
          Sample.w0).1 <> Raise (KeyError key).
Proof.
  split; [reflexivity|].
  assert (Sample.serve
            (Sample.post (Some "push") Sample.signed (JObj Cases.push_short))
            Sample.w0
          = (Raise IndexError, emit ParseBody Sample.fetched)) as ->.
  { vm_compute. reflexivity. }
  split; [reflexivity|]. intros key. discriminate.
Qed.

Lemma refresh_by_status_witness :
  refresh Sample.E Sample.w0 = (Ok tt, Sample.fetched)
  /\ refresh Sample.E Sample.fetched
     = (Ok tt, emit (Fetch "v2") Sample.fetched)
  /\ refresh Sample.E_limited Sample.w0
     = (Abort 403, emit (Fetch "") Sample.w0)
  /\ refresh Cases.E_accepted Sample.w0
     = (Raise LookupError, emit (Fetch "") Sample.w0)
  /\ index Sample.str_of Sample.utf8_decode Z (Z * Z)%type
       Sample.ip_address Sample.ip_network Sample.net_contains
       Cases.E_accepted
       (Sample.post (Some "push") Sample.signed Sample.push_main) Sample.w0
     = (Raise LookupError, emit (Fetch "") Sample.w0).
Proof.
  pose proof (refresh_by_status Sample.str_of
                Sample.utf8_decode Z (Z * Z)%type Sample.ip_address
                Sample.ip_network Sample.net_contains) as H.
  split; [|split; [|split]].
  - destruct (H Sample.E Sample.w0) as (_ & _ & H200 & _).
    apply (H200 eq_refl "v2" ["192.30.252.0/22"; "140.82.112.0/20"]);
      reflexivity.
  - destruct (H Sample.E Sample.fetched) as (_ & H304 & _).
    apply (H304 eq_refl).
  - destruct (H Sample.E_limited Sample.w0) as (_ & _ & _ & Hother).
    destruct Hother as [Hknown _]; [discriminate..|].
    apply Hknown. reflexivity.
  - destruct (H Cases.E_accepted Sample.w0) as (_ & _ & _ & Hother).
    destruct Hother as [_ Hunknown]; [discriminate..|].
    destruct (Hunknown eq_refl) as [Hrefresh Hindex].
    split; [exact Hrefresh|].
    apply (Hindex _ "192.30.253.17" 3223256337%Z); reflexivity.
Defined.

(** * The further properties on the concrete installation *)

Lemma source_outside_every_range_witness :
  Sample.serve Cases.outsider Sample.w0 = (Abort 403, Sample.fetched).
Proof.
  eapply (source_outside_every_range_is_forbidden Sample.str_of
            Sample.utf8_decode Z (Z * Z)%type Sample.ip_address
            Sample.ip_network Sample.net_contains Sample.E
            Cases.outsider "203.0.113.9" _ Sample.w0 Sample.fetched
            ["192.30.252.0/22"; "140.82.112.0/20"] Sample.fetched).
  - reflexivity.
  - reflexivity.
  - reflexivity.
  - vm_compute. reflexivity.
  - vm_compute. reflexivity.
  - vm_compute. reflexivity.
  - repeat constructor; eexists; (split; vm_compute; reflexivity).
Defined.

Lemma source_in_a_range_witness :
  check_source Z (Z * Z)%type Sample.ip_address Sample.ip_network
    Sample.net_contains Sample.E Sample.cfg
    (Sample.post None Sample.signed JNull) Sample.w0
  = (Ok tt, Sample.fetched).
Proof.
  eapply (source_in_a_range_passes Z (Z * Z)%type Sample.ip_address
            Sample.ip_network Sample.net_contains Sample.E Sample.cfg
            (Sample.post None Sample.signed JNull) "192.30.253.17" _
            Sample.w0 Sample.fetched Sample.fetched
            [] "192.30.252.0/22" ["140.82.112.0/20"]).
  - reflexivity.
  - reflexivity.
  - vm_compute. reflexivity.
  - vm_compute. reflexivity.
  - vm_compute. reflexivity.
  - constructor.
  - vm_compute. reflexivity.
  - vm_compute. reflexivity.
Defined.

Lemma loopback_appended_once_witness :
  exists w1,
    whitelist_with_loopback Cases.cfg_loopback Sample.fetched
    = (Ok (ghm_ips w1), w1)
    /\ loopback ∈ ghm_ips w1
    /\ (loopback ∈ ghm_ips Sample.fetched -> w1 = Sample.fetched)
    /\ (loopback ∉ ghm_ips Sample.fetched ->
        ghm_ips w1 = ghm_ips Sample.fetched ++ [loopback])
    /\ whitelist_with_loopback Cases.cfg_loopback w1 = (Ok (ghm_ips w1), w1).
Proof.
  apply (loopback_appended_once Cases.cfg_loopback Sample.fetched).
  reflexivity.
Defined.

Lemma refresh_without_hooks_witness :
  refresh Cases.E_no_hooks Sample.w0
  = (Raise (KeyError "hooks"), set_etag "v3" (emit (Fetch "") Sample.w0))
  /\ (refresh Cases.E_no_hooks ;;; gets ghm_ips)
       (set_etag "v3" (emit (Fetch "") Sample.w0))
     = (Ok [],
        emit (Fetch "v3") (set_etag "v3" (emit (Fetch "") Sample.w0))).
Proof.
  destruct (refresh_without_hooks_keeps_new_token Cases.E_no_hooks
              Sample.w0 "v3") as (Hraise & _ & Hnext).
  - reflexivity.
  - reflexivity.
  - reflexivity.
  - split; [exact Hraise|]. apply Hnext. reflexivity.
Defined.

Lemma signature_accepted_witness :
  (check_signature Sample.E Sample.cfg (Sample.post None Sample.signed JNull)
   = Ok tt
   <-> X_Hub_Signature (Sample.post None Sample.signed JNull)
       = Some ("sha1=" +:+ hmac_sha1_hexdigest "s3cret" "{}"))
  /\ check_signature Cases.E_python3 Sample.cfg
       (Sample.post None Sample.signed JNull) <> Ok tt.
Proof.
  split.
  - destruct (signature_accepted_iff Sample.E Sample.cfg
                (Sample.post None Sample.signed JNull) "s3cret")
      as [Hiff _]; [reflexivity|discriminate|].
    apply Hiff; reflexivity.
  - destruct (signature_accepted_iff Cases.E_python3 Sample.cfg
                (Sample.post None Sample.signed JNull) "s3cret")
      as [_ Hnever]; [reflexivity|discriminate|].
    apply Hnever. left. reflexivity.
Defined.

Lemma signature_rejections_witness :
  check_signature Sample.E Sample.cfg (Sample.post None None JNull)
  = Abort 403
  /\ check_signature Sample.E Sample.cfg
       (Sample.post None
          (Some "md5=e7e0225292f975eab7d48999ea520020ef91b18d") JNull)
     = Abort 501
  /\ check_signature Sample.E Sample.cfg
       (Sample.post None (Some "sha1=00ff") JNull)
     = Abort 403
  /\ check_signature Sample.E Sample.cfg
       (Sample.post None (Some Cases.latin1_signature) JNull)
     = Raise UnicodeEncodeError
  /\ check_signature Cases.E_python3 Sample.cfg
       (Sample.post None Sample.signed JNull)
     = Raise TypeError.
Proof.
  split; [|split; [|split; [|split]]].
  - apply (signature_rejections Sample.E Sample.cfg
             (Sample.post None None JNull) "s3cret");
      [reflexivity|discriminate|reflexivity].
  - destruct (signature_rejections Sample.E Sample.cfg
                (Sample.post None
                   (Some "md5=e7e0225292f975eab7d48999ea520020ef91b18d")
                   JNull) "s3cret") as [_ Hrest];
      [reflexivity|discriminate|].
    apply (Hrest "md5" "e7e0225292f975eab7d48999ea520020ef91b18d");
      [reflexivity|reflexivity|reflexivity|discriminate].
  - destruct (signature_rejections Sample.E Sample.cfg
                (Sample.post None (Some "sha1=00ff") JNull) "s3cret")
      as [_ Hrest]; [reflexivity|discriminate|].
    apply (Hrest "sha1" "00ff");
      [reflexivity..|].
    vm_compute. discriminate.
  - destruct (signature_rejections Sample.E Sample.cfg
                (Sample.post None (Some Cases.latin1_signature) JNull)
                "s3cret")
      as [_ Hrest]; [reflexivity|discriminate|].
    apply (Hrest "sha1" ("caf" +:+ String (ascii_of_nat 233) ""));
      [reflexivity..|].
    right. reflexivity.
  - destruct (signature_rejections Cases.E_python3 Sample.cfg
                (Sample.post None Sample.signed JNull) "s3cret")
      as [_ Hrest]; [reflexivity|discriminate|].
    apply (Hrest "sha1" "e7e0225292f975eab7d48999ea520020ef91b18d");
      reflexivity.
Defined.

Lemma no_secret_ignores_signature_witness :
  Cases.serve_open
    (with_signature (Some "sha1=ab=cd")
       (Sample.post (Some "push") None Cases.push_deleted)) Sample.w0
  = Cases.serve_open (Sample.post (Some "push") None Cases.push_deleted)
      Sample.w0.
Proof.
  apply (no_secret_ignores_signature Sample.str_of Sample.utf8_decode
           Z (Z * Z)%type Sample.ip_address Sample.ip_network
           Sample.net_contains Cases.E_open).
  left. reflexivity.
Defined.

Lemma ref_type_branch_takes_ref_witness :
  extract_branch "create" Cases.branch_created = Ok (JStr "feature/login").
Proof.
  apply (ref_type_branch_takes_ref "create"
           [("ref_type", JStr "branch"); ("ref", JStr "feature/login")]).
  reflexivity.
Defined.

Lemma pull_request_takes_base_ref_witness :
  extract_branch "push" Cases.pull_request_opened = Ok (JStr "develop").
Proof.
  apply (pull_request_takes_base_ref "push"
           [("action", JStr "opened");
            ("pull_request",
             JObj [("head", JObj [("ref", JStr "topic")]);
                   ("base", JObj [("ref", JStr "develop")])])]
           [("head", JObj [("ref", JStr "topic")]);
            ("base", JObj [("ref", JStr "develop")])]
           [("ref", JStr "develop")]).
  - reflexivity.
  - reflexivity.
  - reflexivity.
Defined.

Lemma push_branch_follows_second_slash_witness :
  extract_branch "push" (JObj Cases.push_feature) = Ok (JStr "feature/login").
Proof.
  apply (push_branch_follows_second_slash Cases.push_feature
           "refs" "heads" "feature/login").
  - reflexivity.
  - reflexivity.
  - reflexivity.
  - reflexivity.
  - reflexivity.
Defined.

Lemma push_short_ref_witness :
  extract_branch "push" (JObj Cases.push_short) = Raise IndexError
  /\ handle_event Sample.str_of Sample.utf8_decode Sample.E Sample.cfg
       "/srv/hooks" "push"
       (Sample.post (Some "push") Sample.signed (JObj Cases.push_short))
       Sample.fetched
     = (Raise IndexError, emit ParseBody Sample.fetched).
Proof.
  destruct (push_short_ref_raises_IndexError Sample.str_of
              Sample.utf8_decode Sample.E Cases.push_short "main")
    as [Hraise Hend].
  - reflexivity.
  - reflexivity.
  - reflexivity.
  - vm_compute. lia.
  - split; [exact Hraise|]. apply Hend. reflexivity.
Defined.





Lemma only_resolved_hooks_witness :
  exists l,
    log (Sample.run_hooks Sample.cfg "/srv/hooks" "push" Sample.push_main
           (JStr "repo") (JStr "main") Sample.fetched).2
    = log Sample.fetched ++ l
    /\ forall scr tmpfile ev,
         Spawn scr tmpfile ev ∈ l ->
         executable_file Sample.E scr = true
         /\ scr ∈ candidates Sample.str_of "/srv/hooks" "push"
                    (JStr "repo") (JStr "main")
         /\ tmpfile = mkstemp Sample.E (files Sample.fetched)
         /\ ev = "push".
Proof.
  apply (only_resolved_hooks_are_started Sample.str_of Sample.utf8_decode
           Sample.E Sample.cfg "/srv/hooks" "push" Sample.push_main
           (JStr "repo") (JStr "main") Sample.fetched
           (Sample.run_hooks Sample.cfg "/srv/hooks" "push" Sample.push_main
              (JStr "repo") (JStr "main") Sample.fetched).1).
  apply surjective_pairing.
Defined.

Lemma other_files_untouched_witness :
  files (Sample.run_hooks Sample.cfg "/srv/hooks" "push" Sample.push_main
           (JStr "repo") (JStr "main") Sample.fetched).2 !! "/etc/motd"
  = files Sample.fetched !! "/etc/motd".
Proof.
  apply (other_files_untouched Sample.str_of Sample.utf8_decode
           Sample.E Sample.cfg "/srv/hooks" "push" Sample.push_main
           (JStr "repo") (JStr "main") Sample.fetched
           (Sample.run_hooks Sample.cfg "/srv/hooks" "push" Sample.push_main
              (JStr "repo") (JStr "main") Sample.fetched).1).
  - apply surjective_pairing.
  - vm_compute. discriminate.
Defined.

Lemma deleted_push_is_skipped_witness :
  Sample.serve (Sample.post (Some "push") Sample.signed Cases.push_deleted)
    Sample.w0
  = (Ok (Document (JObj [("status", JStr "skipped")])),
     emit ParseBody Sample.fetched).
Proof.
  apply (deleted_push_is_skipped Sample.str_of Sample.utf8_decode
           Z (Z * Z)%type Sample.ip_address Sample.ip_network
           Sample.net_contains Sample.E
           (Sample.post (Some "push") Sample.signed Cases.push_deleted)
           [("ref", JStr "refs/heads/main"); ("deleted", JBool true);
            ("repository", JObj [("name", JStr "repo")])]
           (JBool true) (JStr "main") (JStr "repo")
           Sample.w0 Sample.fetched).
  - reflexivity.
  - vm_compute. reflexivity.
  - vm_compute. reflexivity.
  - reflexivity.
  - reflexivity.
  - reflexivity.
  - reflexivity.
  - vm_compute. reflexivity.
  - vm_compute. reflexivity.
Defined.

Lemma rejected_request_witness :
  exists r w',
    Sample.serve (Sample.post (Some "push") None Sample.push_main) Sample.w0
    = (r, w')
    /\ (forall answer, r <> Ok answer)
    /\ files w' = files Sample.w0
    /\ (log w' = log Sample.w0
        \/ log w' = log Sample.w0 ++ [Fetch (ghm_etag Sample.w0)]).
Proof.
  apply (rejected_request_reaches_nothing Sample.str_of Sample.utf8_decode
           Z (Z * Z)%type Sample.ip_address Sample.ip_network
           Sample.net_contains Sample.E
           (Sample.post (Some "push") None Sample.push_main) Sample.w0).
  right. right. vm_compute. discriminate.
Defined.

Lemma no_fetch_without_github_ips_only_witness :
  ghm_ips (Cases.serve_open Cases.outsider Sample.w0).2 = ghm_ips Sample.w0
  /\ ghm_etag (Cases.serve_open Cases.outsider Sample.w0).2
     = ghm_etag Sample.w0
  /\ exists l,
       log (Cases.serve_open Cases.outsider Sample.w0).2
       = log Sample.w0 ++ l
       /\ forall t, Fetch t ∉ l.
Proof.
  apply (no_fetch_without_github_ips_only Sample.str_of Sample.utf8_decode
           Z (Z * Z)%type Sample.ip_address Sample.ip_network
           Sample.net_contains Cases.E_open Cases.outsider Sample.w0
           (Cases.serve_open Cases.outsider Sample.w0).1).
  - reflexivity.
  - apply surjective_pairing.
Defined.

Lemma cache_changes_only_in_source_check_witness :
  ghm_ips (Sample.serve
             (Sample.post (Some "push") Sample.signed Sample.push_main)
             Sample.w0).2 = ghm_ips Sample.fetched
  /\ ghm_etag (Sample.serve
                 (Sample.post (Some "push") Sample.signed Sample.push_main)
                 Sample.w0).2 = ghm_etag Sample.fetched
  /\ exists l,
       log (Sample.serve
              (Sample.post (Some "push") Sample.signed Sample.push_main)
              Sample.w0).2 = log Sample.fetched ++ l
       /\ forall t, Fetch t ∉ l.
Proof.
  apply (cache_changes_only_in_source_check Sample.str_of
           Sample.utf8_decode Z (Z * Z)%type Sample.ip_address
           Sample.ip_network Sample.net_contains Sample.E
           (Sample.post (Some "push") Sample.signed Sample.push_main)
           Sample.w0 Sample.fetched
           (Sample.serve
              (Sample.post (Some "push") Sample.signed Sample.push_main)
              Sample.w0).1).
  - reflexivity.
  - vm_compute. reflexivity.
  - apply surjective_pairing.
Defined.

Lemma body_without_document_witness :
  Sample.serve Cases.unparsed Sample.w0
  = (Abort 400, emit ParseBody Sample.fetched)
  /\ Sample.serve (Sample.post (Some "push") Sample.signed (JInt 7))
       Sample.w0
     = (Raise TypeError, emit ParseBody Sample.fetched).
Proof.
  split.
  - apply (body_without_document Sample.str_of Sample.utf8_decode
             Z (Z * Z)%type Sample.ip_address Sample.ip_network
             Sample.net_contains Sample.E Cases.unparsed "push"
             Sample.w0 Sample.fetched).
    + reflexivity.
    + vm_compute. reflexivity.
    + vm_compute. reflexivity.
    + reflexivity.
    + discriminate.
    + reflexivity.
  - apply (body_without_document Sample.str_of Sample.utf8_decode
             Z (Z * Z)%type Sample.ip_address Sample.ip_network
             Sample.net_contains Sample.E
             (Sample.post (Some "push") Sample.signed (JInt 7)) "push"
             Sample.w0 Sample.fetched) with (payload := JInt 7).
    + reflexivity.
    + vm_compute. reflexivity.
    + vm_compute. reflexivity.
    + reflexivity.
    + discriminate.
    + reflexivity.
    + reflexivity.
Defined.


Lemma candidates_stay_in_hooks_dir_witness :
  basename <$> candidates Sample.str_of "/srv/hooks" "push"
                 (JStr "repo") (JStr "main")
  = hook_names Sample.str_of "push" (JStr "repo") (JStr "main")
  /\ Forall (fun c => exists n, c = dir_prefix "/srv/hooks" +:+ n
                                /\ no_char "/" n = true)
       (candidates Sample.str_of "/srv/hooks" "push"
          (JStr "repo") (JStr "main")).
Proof.
  apply (candidates_stay_in_hooks_dir Sample.str_of "/srv/hooks" "push"
           (JStr "repo") (JStr "main")).
  - reflexivity.
  - intros _. reflexivity.
  - intros _. reflexivity.
Defined.
